(** * Visual-regression workflow of the VS Code extension: model and proofs

  The extension drives git, a dev server and the Playwright runner through
  a fixed sequence of awaited steps.  The development below embeds the
  TypeScript sources as programs of a small free monad of asynchronous
  tasks ([Task]), gives the host (git, file system, processes, user
  prompts) an executable semantics driven by an environment oracle, and
  proves the properties of the run sequence on that embedding. *)

From Stdlib Require Import Strings.String Strings.Ascii Lists.List.
From Stdlib Require Import ZArith NArith Bool Arith Lia.
From Stdlib Require Import Numbers.DecimalString Numbers.DecimalPos.
Import ListNotations.
Local Open Scope string_scope.

Set Implicit Arguments.

(** ** JavaScript string helpers

  A JavaScript string is a sequence of 16-bit code units.  The model has
  the code units below 256, one [ascii] each: ASCII and the Latin-1
  supplement.  Every text the program builds itself is ASCII; texts with
  code units from 256 on (in a branch name, a path, or typed by the user)
  are not represented. *)

Module Js.

(** The white space that [String.prototype.trim] strips, as far as it lies
    below 256: tab, line feed, vertical tab, form feed, carriage return
    (U+0009 to U+000D), space (U+0020) and no-break space (U+00A0).  The
    other white space of ECMAScript (U+1680, U+2000 to U+200A, U+2028,
    U+2029, U+202F, U+205F, U+3000, U+FEFF) lies above. *)
Definition isSpace (c : ascii) : bool :=
  let n := nat_of_ascii c in
  (n =? 32)%nat || ((9 <=? n)%nat && (n <=? 13)%nat) || (n =? 160)%nat.

Fixpoint trimStart (s : string) : string :=
  match s with
  | String c r => if isSpace c then trimStart r else s
  | EmptyString => EmptyString
  end.

(** Drops the trailing white space: a character is kept when it is not
    white space or when something is kept after it. *)
Fixpoint trimEnd (s : string) : string :=
  match s with
  | String c r =>
      match trimEnd r with
      | EmptyString => if isSpace c then EmptyString else String c EmptyString
      | r' => String c r'
      end
  | EmptyString => EmptyString
  end.

Definition trim (s : string) : string := trimEnd (trimStart s).

Fixpoint mapChars (f : ascii -> ascii) (s : string) : string :=
  match s with
  | String c r => String (f c) (mapChars f r)
  | EmptyString => EmptyString
  end.

Definition isEmpty (s : string) : bool :=
  match s with EmptyString => true | String _ _ => false end.

(** [a || b] on strings: the empty string is falsy. *)
Definition orElse (a b : string) : string := if isEmpty a then b else a.

Fixpoint rev (s : string) : string :=
  match s with
  | String c r => rev r ++ String c EmptyString
  | EmptyString => EmptyString
  end.

Definition endsWith (s suffix : string) : bool :=
  String.prefix (rev suffix) (rev s).

(** [s.includes(t)] *)
Fixpoint includes (t s : string) : bool :=
  String.prefix t s ||
  match s with
  | String _ r => includes t r
  | EmptyString => false
  end.

(** Template-literal rendering of a non-negative integer. *)
Definition ofN (n : N) : string := NilEmpty.string_of_uint (N.to_uint n).

Definition join (sep : string) (l : list string) : string := String.concat sep l.

End Js.

(** ** The reference-image file name

  The test file that [createTemplateTestFile] writes derives the name of
  each reference image from the path of the tested URL:
<<
  const filename = urlPath
    .replace(/^\//, '')
    .replace(/\//g, '-')
    .replace(/[^a-zA-Z0-9-_]/g, '_')
    || 'homepage';
>>
*)

Module Template.

(** [.replace(/^\//, '')] *)
Definition removeLeadingSlash (s : string) : string :=
  match s with
  | String "/"%char r => r
  | _ => s
  end.

(** [.replace(/\//g, '-')] *)
Definition slashesToHyphens (s : string) : string :=
  Js.mapChars (fun c => if Ascii.eqb c "/" then "-"%char else c) s.

(** The class [[a-zA-Z0-9-_]]. *)
Definition inClass (c : ascii) : bool :=
  let n := nat_of_ascii c in
  ((97 <=? n)%nat && (n <=? 122)%nat)
  || ((65 <=? n)%nat && (n <=? 90)%nat)
  || ((48 <=? n)%nat && (n <=? 57)%nat)
  || Ascii.eqb c "-" || Ascii.eqb c "_".

(** [.replace(/[^a-zA-Z0-9-_]/g, '_')] *)
Definition specialsToUnderscores (s : string) : string :=
  Js.mapChars (fun c => if inClass c then c else "_"%char) s.

Definition filename (urlPath : string) : string :=
  Js.orElse
    (specialsToUnderscores (slashesToHyphens (removeLeadingSlash urlPath)))
    "homepage".

(** The class [[A-Za-z0-9_-]] of the specification, written out: its 64
    characters. *)
Definition specClass : string :=
  "ABCDEFGHIJKLMNOPQRSTUVWXYZabcdefghijklmnopqrstuvwxyz0123456789_-".

Definition inSpecClass (c : ascii) : bool :=
  existsb (Ascii.eqb c) (list_ascii_of_string specClass).

(** The derivation as the specification words it, one character at a
    time: a slash becomes a hyphen, a character of [[A-Za-z0-9_-]] is kept,
    anything else becomes an underscore. *)
Definition deriveChar (c : ascii) : ascii :=
  if Ascii.eqb c "/" then "-"%char
  else if inSpecClass c then c
  else "_"%char.

Definition filename_spec (urlPath : string) : string :=
  let rest :=
    match urlPath with
    | String "/"%char r => r
    | _ => urlPath
    end in
  match Js.mapChars deriveChar rest with
  | EmptyString => "homepage"
  | named => named
  end.

End Template.

(** ** Paths

  [path.join] and [path.dirname] of Node, in their POSIX flavour. *)

(** The pieces of a path between its slashes. *)
Fixpoint segments (p : string) : list string :=
  match p with
  | EmptyString => [EmptyString]
  | String c r =>
      if Ascii.eqb c "/" then EmptyString :: segments r
      else match segments r with
           | seg :: segs => String c seg :: segs
           | [] => [String c EmptyString]
           end
  end.

(** [normalizeString]: an empty segment and [.] are dropped; [..] removes
    the segment before it, and where there is none to remove it is kept in
    a relative path and dropped in an absolute one.  [res] holds the
    segments kept so far, the last one first. *)
Fixpoint normalizeSegments (allowAboveRoot : bool) (segs res : list string)
  : list string :=
  match segs with
  | [] => List.rev res
  | seg :: rest =>
      if Js.isEmpty seg || String.eqb seg "." then
        normalizeSegments allowAboveRoot rest res
      else if String.eqb seg ".." then
        match res with
        | last :: before =>
            if String.eqb last ".." then
              normalizeSegments allowAboveRoot rest
                (if allowAboveRoot then ".." :: res else res)
            else normalizeSegments allowAboveRoot rest before
        | [] =>
            normalizeSegments allowAboveRoot rest
              (if allowAboveRoot then [".."] else [])
        end
      else normalizeSegments allowAboveRoot rest (seg :: res)
  end.

Definition startsWithSlash (p : string) : bool :=
  match p with
  | String c _ => Ascii.eqb c "/"
  | EmptyString => false
  end.

(** [path.normalize] *)
Definition normalize (p : string) : string :=
  if Js.isEmpty p then "." else
  let isAbsolute := startsWithSlash p in
  let trailingSeparator := Js.endsWith p "/" in
  let body :=
    String.concat "/" (normalizeSegments (negb isAbsolute) (segments p) []) in
  if Js.isEmpty body then
    if isAbsolute then "/" else if trailingSeparator then "./" else "."
  else
    (if isAbsolute then "/" else "") ++ body
    ++ (if trailingSeparator then "/" else "").

(** [path.join(a, b)]: the arguments that are not empty, put together
    with a slash and normalized. *)
Definition pathJoin (a b : string) : string :=
  match filter (fun s => negb (Js.isEmpty s)) [a; b] with
  | [] => "."
  | parts => normalize (String.concat "/" parts)
  end.

Fixpoint dropWhile (p : ascii -> bool) (s : string) : string :=
  match s with
  | String c r => if p c then dropWhile p r else s
  | EmptyString => EmptyString
  end.

(** [path.dirname]: from the end of the path and down to its second
    character, the trailing slashes and the last segment are passed over;
    the path up to the slash before them is the result, ["//"] when that
    slash is the second character of an absolute path, and ["/"] or ["."]
    when there is no such slash. *)
Definition dirname (p : string) : string :=
  match p with
  | EmptyString => "."
  | String c rest =>
      let hasRoot := Ascii.eqb c "/" in
      let isSlash := fun x => Ascii.eqb x "/" in
      match dropWhile (fun x => negb (isSlash x))
                      (dropWhile isSlash (Js.rev rest)) with
      | EmptyString => if hasRoot then "/" else "."
      | String _ before =>
          if hasRoot && Js.isEmpty before then "//"
          else String c (Js.rev before)
      end
  end.

(** ** Child processes, commands and errors *)

(** What a finished child process leaves: exit code and both streams. *)
Record ExecResult := mkExec { code : Z; stdout : string; stderr : string }.

Definition EnvVars := list (string * string).

(** Object spread [{...base, ...extra}]: a later key overrides an earlier
    one in place, a new key is appended. *)
Fixpoint assign (base : EnvVars) (k v : string) : EnvVars :=
  match base with
  | [] => [(k, v)]
  | (k', v') :: rest =>
      if String.eqb k' k then (k, v) :: rest else (k', v') :: assign rest k v
  end.

Definition spread (base extra : EnvVars) : EnvVars :=
  fold_left (fun acc kv => assign acc (fst kv) (snd kv)) extra base.

Definition nl : string := String (ascii_of_nat 10) EmptyString.

(** The command lines the sources pass to [exec]. *)
Inductive Cmd :=
| GitShowCurrent
| GitClean
| GitCheckout (branch : string)
| GitRevParse
| GitStatus
| RmSnapshots
| CopyToTemp (tmpDir : string)
| RestoreFromTemp (tmpDir : string)
| RmRf (tmpDir : string)
| Lsof (port : N)
| PwVersion
| PwUpdate (testPath : string)
| PwTest (testPath : string)
| PwShowReport
| KillReportServer
| PkillReport
| Npm (script : string).

Definition render (c : Cmd) : string :=
  match c with
  | GitShowCurrent => "git branch --show-current"
  | GitClean => "git clean -fd test-results/ playwright-report/"
  | GitCheckout b => "git checkout -f " ++ b
  | GitRevParse => "git rev-parse --git-dir"
  | GitStatus => "git status --porcelain"
  | RmSnapshots => "rm -rf tests/visual/*.spec.ts-snapshots"
  | CopyToTemp d =>
      "mkdir -p " ++ d ++ " && cp -r tests/visual/*.spec.ts-snapshots "
        ++ d ++ "/ 2>/dev/null || true"
  | RestoreFromTemp d =>
      "rm -rf tests/visual/*.spec.ts-snapshots && cp -r " ++ d
        ++ "/*.spec.ts-snapshots tests/visual/ 2>/dev/null || true"
  | RmRf d => "rm -rf " ++ d
  | Lsof p => "lsof -ti:" ++ Js.ofN p
  | PwVersion => "npx playwright --version"
  | PwUpdate t => "npx playwright test " ++ t ++ " --update-snapshots"
  | PwTest t => "npx playwright test " ++ t ++ " --reporter=html"
  | PwShowReport => "npx playwright show-report"
  | KillReportServer => "lsof -ti:9323 | xargs kill -9 2>/dev/null || true"
  | PkillReport => "pkill -f 'playwright show-report' || true"
  | Npm s => "npm run " ++ s
  end.

Definition isGit (c : Cmd) : bool :=
  match c with
  | GitShowCurrent | GitClean | GitCheckout _ | GitRevParse | GitStatus => true
  | _ => false
  end.

(** A thrown value: [new Error(message)], or the error a promisified
    [exec] rejects with, which carries the command line and the streams of
    the failed process. *)
Inductive JsError :=
| Error (message : string)
| ExecError (cmd : string) (r : ExecResult).

(** Node words the message of a failed [exec] as the command line followed
    by what the process wrote to stderr. *)
Definition message (e : JsError) : string :=
  match e with
  | Error m => m
  | ExecError cmd r => "Command failed: " ++ cmd ++ nl ++ stderr r
  end.

(** [error.stdout] and [error.stderr]; undefined on a plain [Error]. *)
Definition errStdout (e : JsError) : option string :=
  match e with Error _ => None | ExecError _ r => Some (stdout r) end.

Definition errStderr (e : JsError) : option string :=
  match e with Error _ => None | ExecError _ r => Some (stderr r) end.

(** String conversion of a possibly undefined operand of [+]. *)
Definition str (o : option string) : string :=
  match o with Some s => s | None => "undefined" end.

(** [a || b || ''] on possibly undefined strings. *)
Definition firstTruthy (a b : option string) : string :=
  match a with
  | Some (String c r) => String c r
  | _ => match b with Some s => s | None => "" end
  end.

(** [`${error}`] *)
Definition errorToString (e : JsError) : string := "Error: " ++ message e.

(** The handle [exec] returns; [pid] is undefined when the spawn failed. *)
Record Proc := mkProc { pid : option N }.

(** ** The host *)

Inductive Node := File | Dir (entries : list string).

Inductive Event :=
| EvExec (c : Cmd) (env : EnvVars)
| EvSpawn (line : string) (env : EnvVars) (child : Proc)
| EvKillGroup (p : N)
| EvKill (child : Proc)
| EvKillPort (port : N)
| EvExitWait (child : Proc)
| EvSleep (ms : N)
| EvPrompt (text : string) (items : list string)
| EvNotify (text : string)
| EvOpen (url : string)
| EvMkdir (path : string)
| EvWrite (path : string)
| EvStatusBar (state : string)
| EvNow.

(** Everything the program cannot decide: what each command exits with,
    who listens on a port, what the user answers.  Each entry is indexed by
    the number of host events so far, so any history can be described.

    [landing n name] is what a [git checkout -f NAME] that exits with zero
    makes of HEAD: [Some b] when branch [b] is active afterwards, with [""]
    for a detached HEAD, and [None] when HEAD is left where it is.  The
    command line goes through [/bin/sh], and the repository decides what a
    name stands for: a local branch whose name the shell passes on as it
    is becomes active; a tag or a commit detaches HEAD; a name such as
    [#123-fix] is a comment to the shell, which then runs [git checkout -f]
    alone and leaves HEAD where it is. *)
Record Oracle := mkOracle {
  tool : nat -> Cmd -> ExecResult;
  listeners : nat -> N -> list N;
  spawned : nat -> option N;
  groupKill : nat -> bool;
  exits : nat -> bool;
  reply : nat -> option string;
  now : nat -> N;
  landing : nat -> string -> option string
}.

(** The shared host state: the repository's active branch, the file system,
    the fields of the extension's single controller object, and the log of
    host events. *)
Record World := mkWorld {
  oracle : Oracle;
  processEnv : EnvVars;
  trace : list Event;
  branch : string;
  fs : string -> option Node;
  isRunning : bool;
  currentProcess : option Proc
}.

(** The objects one command invocation creates for itself: the
    [serverProcess] field of its [ServerService], and the [tmpDir] variable
    of [runTest]. *)
Record Inst := mkInst {
  serverProcess : option Proc;
  tmpDir : string
}.

Definition fresh : Inst := mkInst None "".

(** ** Asynchronous tasks

    An [async] function is a tree of host calls.  [Local] reads or writes
    the invocation's own objects, [Host] is a synchronous host call, and
    [Await] is a suspension point: the task resumes when the host completes
    the awaited operation, which it may never do. *)
Inductive Task (A : Type) : Type :=
| Ret (a : A)
| Throw (e : JsError)
| Local (X : Type) (f : Inst -> X * Inst) (k : X -> Task A)
| Host (X : Type) (f : World -> X * World) (k : X -> Task A)
| Await (X : Type) (f : World -> option X * World) (k : X -> Task A).

Arguments Ret {A} a.
Arguments Throw {A} e.
Arguments Local {A X} f k.
Arguments Host {A X} f k.
Arguments Await {A X} f k.

Fixpoint bind {A B} (t : Task A) (g : A -> Task B) : Task B :=
  match t with
  | Ret a => g a
  | Throw e => Throw e
  | Local f k => Local f (fun x => bind (k x) g)
  | Host f k => Host f (fun x => bind (k x) g)
  | Await f k => Await f (fun x => bind (k x) g)
  end.

(** [try { t } catch (e) { h e }] *)
Fixpoint tryCatch {A} (t : Task A) (h : JsError -> Task A) : Task A :=
  match t with
  | Ret a => Ret a
  | Throw e => h e
  | Local f k => Local f (fun x => tryCatch (k x) h)
  | Host f k => Host f (fun x => tryCatch (k x) h)
  | Await f k => Await f (fun x => tryCatch (k x) h)
  end.

(** [try { t } finally { fin }]: [fin] runs after [t] settles either way;
    the outcome is that of [t] unless [fin] itself throws. *)
Fixpoint tryFinally {A} (t : Task A) (fin : Task unit) : Task A :=
  match t with
  | Ret a => bind fin (fun _ => Ret a)
  | Throw e => bind fin (fun _ => Throw e)
  | Local f k => Local f (fun x => tryFinally (k x) fin)
  | Host f k => Host f (fun x => tryFinally (k x) fin)
  | Await f k => Await f (fun x => tryFinally (k x) fin)
  end.

Declare Scope task_scope.
Delimit Scope task_scope with task.
Notation "x <- t ;; u" := (bind t (fun x => u))
  (at level 61, t at next level, right associativity) : task_scope.
Notation "t ;; u" := (bind t (fun _ => u))
  (at level 61, right associativity) : task_scope.
Local Open Scope task_scope.

Definition local {X} (f : Inst -> X * Inst) : Task X := Local f (@Ret X).
Definition host {X} (f : World -> X * World) : Task X := Host f (@Ret X).
Definition await {X} (f : World -> option X * World) : Task X := Await f (@Ret X).

Definition when (b : bool) (t : Task unit) : Task unit :=
  if b then t else Ret tt.

(** How a promise settles. *)
Inductive Outcome (A : Type) : Type :=
| Resolved (a : A)
| Rejected (e : JsError)
| Pending.

Arguments Resolved {A} a.
Arguments Rejected {A} e.
Arguments Pending {A}.

(** Runs one task alone, to the end or to an await that never completes. *)
Fixpoint run {A} (t : Task A) (i : Inst) (w : World) : Outcome A * Inst * World :=
  match t with
  | Ret a => (Resolved a, i, w)
  | Throw e => (Rejected e, i, w)
  | Local f k => let (x, i') := f i in run (k x) i' w
  | Host f k => let (x, w') := f w in run (k x) i w'
  | Await f k =>
      match f w with
      | (Some x, w') => run (k x) i w'
      | (None, w') => (Pending, i, w')
      end
  end.

Definition settled {A} (o : Outcome A) : bool :=
  match o with Pending => false | _ => true end.

(** ** Host semantics *)

Module Sys.

Definition step (w : World) : nat := length (trace w).

Definition record (e : Event) (w : World) : World :=
  mkWorld (oracle w) (processEnv w) (trace w ++ [e]) (branch w) (fs w)
    (isRunning w) (currentProcess w).

Definition withBranch (b : string) (w : World) : World :=
  mkWorld (oracle w) (processEnv w) (trace w) b (fs w)
    (isRunning w) (currentProcess w).

Definition withFs (f : string -> option Node) (w : World) : World :=
  mkWorld (oracle w) (processEnv w) (trace w) (branch w) f
    (isRunning w) (currentProcess w).

Definition withIsRunning (b : bool) (w : World) : World :=
  mkWorld (oracle w) (processEnv w) (trace w) (branch w) (fs w)
    b (currentProcess w).

Definition withCurrentProcess (p : option Proc) (w : World) : World :=
  mkWorld (oracle w) (processEnv w) (trace w) (branch w) (fs w)
    (isRunning w) p.

(** File-system updates, on paths as keys. *)
Definition put (p : string) (n : Node) (f : string -> option Node)
  : string -> option Node :=
  fun q => if String.eqb q p then Some n else f q.

(** [mkdir -p] and [fs.mkdirSync(p, { recursive: true })]: an existing
    entry is left alone. *)
Definition mkdirP (p : string) (f : string -> option Node)
  : string -> option Node :=
  match f p with
  | Some _ => f
  | None => put p (Dir []) f
  end.

(** [rm -rf p]: the entry and everything below it. *)
Definition remove (p : string) (f : string -> option Node)
  : string -> option Node :=
  fun q =>
    if String.eqb q p || String.prefix (p ++ "/") q then None else f q.

(** One line per process id, as [lsof -t] prints them. *)
Definition listing (pids : list N) : string :=
  String.concat "" (map (fun p => Js.ofN p ++ nl) pids).

(** What a command exits with: the oracle decides.  Where the oracle lets
    [lsof -ti:PORT] run (exit code zero), [lsof] lists the processes with a
    socket on the port and exits with 1 when there is none; otherwise
    [lsof] itself has failed, not installed or not permitted to look, and
    the result is the oracle's.  Likewise [git branch --show-current],
    where it works, prints the active branch. *)
Definition outcomeOf (c : Cmd) (w : World) : ExecResult :=
  let r := tool (oracle w) (step w) c in
  match c with
  | Lsof port =>
      if (code r =? 0)%Z then
        match listeners (oracle w) (step w) port with
        | [] => mkExec 1 "" ""
        | pids => mkExec 0 (listing pids) ""
        end
      else r
  | GitShowCurrent =>
      if (code r =? 0)%Z then mkExec 0 (branch w ++ nl) (stderr r) else r
  | _ => r
  end.

(** What a command that exits with zero has done, as far as the host
    state records it; the contents of the reference-image directories are
    not tracked.  Where [git checkout -f] leaves HEAD is the oracle's
    [landing]. *)
Definition effect (c : Cmd) (w : World) : World :=
  match c with
  | GitCheckout b =>
      match landing (oracle w) (step w) b with
      | Some b' => withBranch b' w
      | None => w
      end
  | CopyToTemp d => withFs (mkdirP d (fs w)) w
  | RmRf d => withFs (remove d (fs w)) w
  | _ => w
  end.

(** [exec]: [env] is the environment handed over, when one is. *)
Definition exec (c : Cmd) (env : option EnvVars) (w : World)
  : option ExecResult * World :=
  let r := outcomeOf c w in
  let vars := match env with Some e => e | None => processEnv w end in
  (Some r, record (EvExec c vars) (if (code r =? 0)%Z then effect c w else w)).

(** [exec] as a handle that is not awaited. *)
Definition spawn (line : string) (env : EnvVars) (w : World) : Proc * World :=
  let child := mkProc (spawned (oracle w) (step w)) in
  (child, record (EvSpawn line env child) w).

(** [process.kill(-pid)]; [false] when it throws. *)
Definition killGroup (p : N) (w : World) : bool * World :=
  (groupKill (oracle w) (step w), record (EvKillGroup p) w).

(** [child.kill()] *)
Definition kill (child : Proc) (w : World) : unit * World :=
  (tt, record (EvKill child) w).

(** Waiting for the ['exit'] event of a child. *)
Definition exitOf (child : Proc) (w : World) : option unit * World :=
  (if exits (oracle w) (step w) then Some tt else None,
   record (EvExitWait child) w).

Definition sleep (ms : N) (w : World) : option unit * World :=
  (Some tt, record (EvSleep ms) w).

Definition dateNow (w : World) : N * World :=
  (now (oracle w) (step w), record EvNow w).

(** A message with buttons: the user picks one of [items] or dismisses. *)
Definition ask (text : string) (items : list string) (w : World)
  : option (option string) * World :=
  let picked :=
    match reply (oracle w) (step w) with
    | Some x => if existsb (String.eqb x) items then Some x else None
    | None => None
    end in
  (Some picked, record (EvPrompt text items) w).

Definition notify (text : string) (w : World) : unit * World :=
  (tt, record (EvNotify text) w).

Definition openExternal (url : string) (w : World) : option unit * World :=
  (Some tt, record (EvOpen url) w).

Definition existsSync (p : string) (w : World) : bool * World :=
  (match fs w p with Some _ => true | None => false end, w).

Definition isDirectory (p : string) (w : World) : bool * World :=
  (match fs w p with Some (Dir _) => true | _ => false end, w).

Definition mkdirSync (p : string) (w : World) : unit * World :=
  (tt, record (EvMkdir p) (withFs (mkdirP p (fs w)) w)).

Definition readdirSync (p : string) (w : World) : option (list string) * World :=
  (match fs w p with Some (Dir es) => Some es | _ => None end, w).

(** [fs.writeFileSync(path.join(dir, name), ...)] *)
Definition writeFileSync (dir name : string) (w : World) : unit * World :=
  let f := put (pathJoin dir name) File (fs w) in
  let f' :=
    match fs w dir with
    | Some (Dir es) =>
        put dir (Dir (if existsb (String.eqb name) es then es else es ++ [name])) f
    | _ => f
    end in
  (tt, record (EvWrite (pathJoin dir name)) (withFs f' w)).

Definition getProcessEnv (w : World) : EnvVars * World := (processEnv w, w).

Definition statusBar (state : string) (w : World) : unit * World :=
  (tt, record (EvStatusBar state) w).

(** An input box: the text the user enters, or nothing when dismissed. *)
Definition input (text : string) (w : World) : option (option string) * World :=
  (Some (reply (oracle w) (step w)), record (EvPrompt text []) w).

Definition getIsRunning (w : World) : bool * World := (isRunning w, w).

Definition setIsRunning (b : bool) (w : World) : unit * World :=
  (tt, withIsRunning b w).

Definition setCurrentProcess (p : option Proc) (w : World) : unit * World :=
  (tt, withCurrentProcess p w).

End Sys.

(** [promisify(exec)]: resolves with the streams when the process exits
    with zero, rejects with an error that carries them otherwise. *)
Definition execAsync (c : Cmd) (env : option EnvVars) : Task ExecResult :=
  r <- await (Sys.exec c env) ;;
  if (code r =? 0)%Z then Ret r else Throw (ExecError (render c) r).

Definition wait (ms : N) : Task unit := await (Sys.sleep ms).

(** The extension's settings; an unset entry takes the default given at
    the place where it is read. *)
Record Settings := mkSettings {
  mainBranch : option string;
  serverPort : option N;
  serverStartupTime : option N;
  testPath : option string;
  serverStartCommand : option string;
  environmentVariables : option EnvVars;
  notifyOnCompletion : option bool
}.

Definition get {T} (o : option T) (default : T) : T :=
  match o with Some v => v | None => default end.

(** ** services/gitService.ts *)

Module GitService.

Definition getCurrentBranch : Task string :=
  r <- execAsync GitShowCurrent None ;;
  Ret (Js.trim (stdout r)).

Definition checkout (branch : string) : Task unit :=
  tryCatch (execAsync GitClean None ;; Ret tt) (fun _ => Ret tt) ;;
  execAsync (GitCheckout branch) None ;;
  Ret tt.

Definition clearSnapshots : Task unit :=
  tryCatch (execAsync RmSnapshots None ;; Ret tt) (fun _ => Ret tt).

Definition saveSnapshotsToTemp : Task string :=
  t <- host Sys.dateNow ;;
  let tmpDir := "/tmp/visual-regression-baseline-" ++ Js.ofN t in
  tryCatch (execAsync (CopyToTemp tmpDir) None ;; Ret tmpDir)
           (fun _ => Ret tmpDir).

Definition restoreSnapshotsFromTemp (tmpDir : string) : Task unit :=
  tryCatch (execAsync (RestoreFromTemp tmpDir) None ;; Ret tt)
           (fun _ => Ret tt).

Definition cleanupTemp (tmpDir : string) : Task unit :=
  tryCatch (execAsync (RmRf tmpDir) None ;; Ret tt) (fun _ => Ret tt).

End GitService.

(** ** services/serverService.ts *)

Module ServerService.

Definition getServerProcess (i : Inst) : option Proc * Inst :=
  (serverProcess i, i).

Definition setServerProcess (p : option Proc) (i : Inst) : unit * Inst :=
  (tt, mkInst p (tmpDir i)).

Definition isPortInUse (port : N) : Task bool :=
  tryCatch
    (r <- execAsync (Lsof port) None ;;
     Ret (negb (Js.isEmpty (Js.trim (stdout r)))))
    (fun _ => Ret false).

Definition portInUseMessage (port : N) : string :=
  "Port " ++ Js.ofN port
  ++ " is already in use. Please stop the process using this port or configure a different port in settings (visualRegression.serverPort).".

Definition stop : Task unit :=
  p <- local getServerProcess ;;
  match p with
  | None => Ret tt
  | Some _ =>
      p' <- local getServerProcess ;;
      match p' with
      | None => Ret tt
      | Some child =>
          match pid child with
          | Some n =>
              if (n =? 0)%N then Ret tt
              else
                delivered <- host (Sys.killGroup n) ;;
                if delivered then Ret tt else host (Sys.kill child)
          | None => Ret tt
          end ;;
          await (Sys.exitOf child) ;;
          local (setServerProcess None)
      end
  end.

Definition start (config : Settings) : Task unit :=
  let startCommand := get (serverStartCommand config) "npm run dev" in
  let port := get (serverPort config) 3000%N in
  let customEnvVars := get (environmentVariables config) [] in
  portInUse <- isPortInUse port ;;
  (if portInUse then Throw (Error (portInUseMessage port)) else Ret tt) ;;
  p <- local getServerProcess ;;
  match p with Some _ => stop | None => Ret tt end ;;
  penv <- host Sys.getProcessEnv ;;
  let env := spread penv customEnvVars in
  child <- host (Sys.spawn startCommand env) ;;
  local (setServerProcess (Some child)).

(** Modelled from the spec: [killPort] is called by [runTest] but is not
    in the sources at hand.  The specification describes it as a forceful
    last-resort reclaim of the port that bypasses the stop handshake and
    belongs to best-effort cleanup: it reaches the host, leaves the tracked
    handle alone and does not throw. *)
Definition killPort (port : N) : Task unit :=
  await (fun w => (Some tt, Sys.record (EvKillPort port) w)).

End ServerService.

(** ** services/playwrightService.ts *)

Module PlaywrightService.

Record TestResult := mkTestResult { success : bool; output : string }.

Definition localUrl (port : N) (urlPath : string) : string :=
  "http://localhost:" ++ Js.ofN port ++ urlPath.

Definition updateSnapshots (config : Settings) (urlPath : string) (port : N)
  : Task unit :=
  let path := get (testPath config) "tests/visual/pages.spec.ts" in
  let customEnvVars := get (environmentVariables config) [] in
  let url := localUrl port urlPath in
  let cmd := PwUpdate path in
  penv <- host Sys.getProcessEnv ;;
  let env := spread (assign penv "TEST_URL" url) customEnvVars in
  tryCatch
    (execAsync cmd (Some env) ;; Ret tt)
    (fun error =>
       Throw (Error ("Playwright test failed: " ++ message error ++ nl
                     ++ firstTruthy (errStderr error) (errStdout error)))).

Definition runTests (config : Settings) (urlPath : string) (port : N)
  : Task TestResult :=
  let path := get (testPath config) "tests/visual/pages.spec.ts" in
  let customEnvVars := get (environmentVariables config) [] in
  let url := localUrl port urlPath in
  let cmd := PwTest path in
  penv <- host Sys.getProcessEnv ;;
  let env := spread (assign penv "TEST_URL" url) customEnvVars in
  tryCatch
    (r <- execAsync cmd (Some env) ;;
     Ret (mkTestResult true (stdout r ++ stderr r)))
    (fun error =>
       Ret (mkTestResult false (str (errStdout error) ++ str (errStderr error)))).

(** The environment of a run over several targets. *)
Definition targetsEnv (penv customEnvVars : EnvVars) (urlPaths : list string)
  (port : N) : EnvVars :=
  let urls := map (localUrl port) urlPaths in
  spread (assign (assign penv "TEST_URL" (hd "" urls))
                 "TEST_URLS" (Js.join "," urls))
         customEnvVars.

(** Modelled from the spec: [updateAllSnapshots] is called by [runTest]
    but is not in the sources at hand.  Per the specification it invokes
    the runner in snapshot-update mode for the full target set, with
    [TEST_URL]/[TEST_URLS] and the custom variables set, and fails with
    the runner's output unless the exit code is zero; the failure is worded
    as in [updateSnapshots]. *)
Definition updateAllSnapshots (config : Settings) (urlPaths : list string)
  (port : N) : Task unit :=
  let path := get (testPath config) "tests/visual/pages.spec.ts" in
  let customEnvVars := get (environmentVariables config) [] in
  penv <- host Sys.getProcessEnv ;;
  let env := targetsEnv penv customEnvVars urlPaths port in
  tryCatch
    (execAsync (PwUpdate path) (Some env) ;; Ret tt)
    (fun error =>
       Throw (Error ("Playwright test failed: " ++ message error ++ nl
                     ++ firstTruthy (errStderr error) (errStdout error)))).

(** Modelled from the spec: [runAllTests] is called by [runTest] but is
    not in the sources at hand.  Per the specification it invokes the
    runner in assertion mode for the same target set and returns
    [success = (exit code == 0)] with the combined output; a non-zero exit
    is not raised. *)
Definition runAllTests (config : Settings) (urlPaths : list string)
  (port : N) : Task TestResult :=
  let path := get (testPath config) "tests/visual/pages.spec.ts" in
  let customEnvVars := get (environmentVariables config) [] in
  penv <- host Sys.getProcessEnv ;;
  let env := targetsEnv penv customEnvVars urlPaths port in
  tryCatch
    (r <- execAsync (PwTest path) (Some env) ;;
     Ret (mkTestResult true (stdout r ++ stderr r)))
    (fun error =>
       Ret (mkTestResult false (str (errStdout error) ++ str (errStderr error)))).

(** The class [[.*+?^${}()|[\]\\]] of [escapeRegex]. *)
Definition isRegexSpecial (c : ascii) : bool :=
  existsb (Ascii.eqb c) (list_ascii_of_string ".*+?^${}()|[]\").

(** [str.replaceAll(/[.*+?^${}()|[\]\\]/g, String.raw`\$&`)]: every
    character of the class is replaced by a backslash and itself. *)
Fixpoint escapeRegex (str : string) : string :=
  match str with
  | String c r =>
      if isRegexSpecial c then String "\" (String c (escapeRegex r))
      else String c (escapeRegex r)
  | EmptyString => EmptyString
  end.

End PlaywrightService.

(** ** testRunner.ts

    Writes to the output channel and to the console, progress reports and
    the spinner of the second copy of the runner carry no control flow and
    are left out, as are the glyphs that prefix user-facing texts and the
    contents of written files.  Both copies of the runner make the same
    host calls in the same order. *)

Module TestRunner.

Definition getTmpDir (i : Inst) : string * Inst := (tmpDir i, i).

Definition setTmpDir (d : string) (i : Inst) : unit * Inst :=
  (tt, mkInst (serverProcess i) d).

Definition readdirSync (p : string) : Task (list string) :=
  r <- host (Sys.readdirSync p) ;;
  match r with
  | Some es => Ret es
  | None => Throw (Error ("ENOTDIR: not a directory, scandir '" ++ p ++ "'"))
  end.

Definition isCreateTemplate (action : option string) : bool :=
  match action with
  | Some a => String.eqb a "Create Template"
  | None => false
  end.

Definition createTemplateTestFile (workspaceRoot testDir testPath : string)
  : Task unit :=
  host (Sys.writeFileSync testDir "pages.spec.ts") ;;
  let configPath := pathJoin workspaceRoot "playwright.config.ts" in
  configExists <- host (Sys.existsSync configPath) ;;
  when (negb configExists)
       (host (Sys.writeFileSync workspaceRoot "playwright.config.ts")) ;;
  host (Sys.notify ("Created template test file: " ++ testPath ++ "/pages.spec.ts")).

Definition validateSetup (workspaceRoot testPath : string) : Task unit :=
  (* Check if Playwright is installed *)
  tryCatch
    (execAsync PwVersion None ;; Ret tt)
    (fun _ => Throw (Error
       "Playwright is not installed. Please run: npm install -D @playwright/test && npx playwright install")) ;;
  (* Check if test file/directory exists *)
  let testFile := pathJoin workspaceRoot testPath in
  testFileExists <- host (Sys.existsSync testFile) ;;
  isDirectory <-
    (if testFileExists then host (Sys.isDirectory testFile)
     else Ret (negb (Js.endsWith testPath ".ts")
               && negb (Js.endsWith testPath ".js"))) ;;
  (if isDirectory then
     when (negb testFileExists) (host (Sys.mkdirSync testFile)) ;;
     files <- readdirSync testFile ;;
     let testFiles :=
       filter (fun f => Js.endsWith f ".spec.ts" || Js.endsWith f ".spec.js")
              files in
     match testFiles with
     | [] =>
         action <- await (Sys.ask
           ("No test files found in " ++ testPath
            ++ ". Would you like to create a template test file?")
           ["Create Template"; "Cancel"]) ;;
         if isCreateTemplate action
         then createTemplateTestFile workspaceRoot testFile testPath
         else Throw (Error "No test files found. Please add test files to continue.")
     | _ :: _ => Ret tt
     end
   else if testFileExists then Ret tt
   else
     let parentDir := dirname testFile in
     parentExists <- host (Sys.existsSync parentDir) ;;
     when (negb parentExists) (host (Sys.mkdirSync parentDir)) ;;
     action <- await (Sys.ask
       ("Test file not found: " ++ testPath
        ++ ". Would you like to create a template test file?")
       ["Create Template"; "Cancel"]) ;;
     if isCreateTemplate action
     then createTemplateTestFile workspaceRoot parentDir (dirname testPath)
     else Throw (Error "Test file not found. Please create the test file to continue.")) ;;
  (* Check if it's a git repository *)
  tryCatch
    (execAsync GitRevParse None ;; Ret tt)
    (fun _ => Throw (Error "Not a Git repository. Please initialize git: git init")).

Definition showHtmlReport : Task unit :=
  tryCatch
    (tryCatch (execAsync KillReportServer None ;; wait 500) (fun _ => Ret tt) ;;
     penv <- host Sys.getProcessEnv ;;
     host (Sys.spawn (render PwShowReport) penv) ;;
     wait 1500 ;;
     await (Sys.openExternal "http://localhost:9323") ;;
     host (Sys.notify "Visual regression report opened in browser"))
    (fun error =>
       host (Sys.notify ("Failed to open report: " ++ errorToString error))).

Definition isShowReport (action : option string) : bool :=
  match action with
  | Some a => String.eqb a "Show Report"
  | None => false
  end.

(** The body of the [try] block of [runTest]. *)
Definition sequence (config : Settings) (urlPaths : list string)
  (mainBranch originalBranch : string) (port startupTime : N) : Task unit :=
  (* Switch to main branch *)
  GitService.checkout mainBranch ;;
  (* Start server and capture baseline *)
  ServerService.start config ;;
  wait startupTime ;;
  PlaywrightService.updateAllSnapshots config urlPaths port ;;
  (* Copy the baseline snapshots to temp directory *)
  saved <- GitService.saveSnapshotsToTemp ;;
  local (setTmpDir saved) ;;
  (* Stop server *)
  ServerService.stop ;;
  (* Switch back to original branch *)
  GitService.checkout originalBranch ;;
  (* Restore baseline snapshots from temp *)
  dir <- local getTmpDir ;;
  GitService.restoreSnapshotsFromTemp dir ;;
  (* Start server and run comparison tests *)
  ServerService.start config ;;
  wait startupTime ;;
  result <- PlaywrightService.runAllTests config urlPaths port ;;
  (* Stop server *)
  ServerService.stop ;;
  (* Show results *)
  if PlaywrightService.success result then
    host (Sys.notify ("Visual regression tests passed for all "
                      ++ Js.ofN (N.of_nat (length urlPaths)) ++ " URL(s)!"))
  else
    action <- await (Sys.ask
      "Visual regression tests failed - differences detected!"
      ["Show Report"; "Dismiss"]) ;;
    when (isShowReport action) showHtmlReport.

(** The [catch] block of [runTest]. *)
Definition recover (originalBranch : string) (port : N) (error : JsError)
  : Task unit :=
  ServerService.stop ;;
  ServerService.killPort port ;;
  tryCatch (GitService.checkout originalBranch) (fun _ => Ret tt) ;;
  Throw error.

(** The [finally] block of [runTest]. *)
Definition cleanup : Task unit :=
  dir <- local getTmpDir ;;
  when (negb (Js.isEmpty dir)) (GitService.cleanupTemp dir).

Definition runTest (config : Settings) (workspaceRoot : string)
  (urlPaths : list string) : Task unit :=
  let mainBranch := get (mainBranch config) "main" in
  let port := get (serverPort config) 3000%N in
  let startupTime := get (serverStartupTime config) 5000%N in
  let path := get (testPath config) "tests/visual" in
  (* Validate prerequisites *)
  tryCatch (validateSetup workspaceRoot path) (fun error => Throw error) ;;
  (* Save current branch *)
  originalBranch <- GitService.getCurrentBranch ;;
  (* Clear any existing snapshots before starting *)
  GitService.clearSnapshots ;;
  local (setTmpDir "") ;;
  tryFinally
    (tryCatch
       (sequence config urlPaths mainBranch originalBranch port startupTime)
       (recover originalBranch port))
    cleanup.

End TestRunner.

(** ** visualRegressionController.ts *)

Module VisualRegressionController.

Inductive Mode := Full | Changed | Single.

Record TestResult := mkTestResult {
  success : bool;
  output : string;
  errorOutput : string
}.

(** The status bar item; the timer that returns it to idle after a
    success fires outside the workflow and is left out. *)
Definition updateStatusBar (state : string) : Task unit :=
  host (Sys.statusBar state).

Definition checkGitStatus : Task bool :=
  tryCatch
    (r <- execAsync GitStatus None ;;
     Ret (negb (Js.isEmpty (Js.trim (stdout r)))))
    (fun _ => Ret false).

Definition getCurrentBranch : Task string :=
  tryCatch
    (r <- execAsync GitShowCurrent None ;; Ret (Js.trim (stdout r)))
    (fun _ => Throw (Error "Could not determine current branch")).

(** Starts the command, tracks its handle in [currentProcess] and
    resolves when the process closes; it never rejects. *)
Definition runCommand (command : Cmd) : Task TestResult :=
  penv <- host Sys.getProcessEnv ;;
  child <- host (Sys.spawn (render command) penv) ;;
  host (Sys.setCurrentProcess (Some child)) ;;
  r <- await (Sys.exec command None) ;;
  host (Sys.setCurrentProcess None) ;;
  Ret (mkTestResult (code r =? 0)%Z (stdout r) (stderr r)).

Definition isItem (item : string) (action : option string) : bool :=
  match action with
  | Some a => String.eqb a item
  | None => false
  end.

Definition showReport : Task unit :=
  tryCatch
    (execAsync PwShowReport None ;; Ret tt)
    (fun error =>
       if Js.includes "EADDRINUSE" (errorToString error) then
         action <- await (Sys.ask
           "Playwright report server is already running on another port. Kill existing server and restart?"
           ["Kill & Restart"; "Open in Browser"; "Cancel"]) ;;
         if isItem "Kill & Restart" action then
           tryCatch
             (execAsync PkillReport None ;;
              wait 1000 ;;
              execAsync PwShowReport None ;;
              Ret tt)
             (fun retryError =>
                host (Sys.notify ("Failed to restart Playwright report: "
                                  ++ errorToString retryError)))
         else if isItem "Open in Browser" action then
           await (Sys.openExternal "http://localhost:9323")
         else Ret tt
       else
         host (Sys.notify ("Could not open Playwright report: "
                           ++ errorToString error))).

Definition workflowCommand (mode : option Mode) (page : option string) : Cmd :=
  Npm ("test:playwright:visual:workflow"
       ++ match mode, page with
          | Some Changed, _ => " -- --changed"
          | Some Single, Some (String c r) => " -- --page " ++ String c r
          | _, _ => ""
          end).

(** A prompt that lets the workflow go on only with "Continue Anyway". *)
Definition confirm (text : string) : Task bool :=
  proceed <- await (Sys.ask text ["Continue Anyway"; "Cancel"]) ;;
  if isItem "Continue Anyway" proceed then Ret true
  else updateStatusBar "idle" ;; Ret false.

(** The [try] block of [runWorkflow]; an early [return] ends it. *)
Definition attempt (config : Settings) (mode : option Mode)
  (page : option string) : Task unit :=
  host (Sys.setIsRunning true) ;;
  updateStatusBar "running" ;;
  (* Check current branch *)
  currentBranch <- getCurrentBranch ;;
  onward <-
    (if String.eqb currentBranch "main" then
       confirm "You are on the main branch. This workflow is designed for feature branches."
     else Ret true) ;;
  if negb onward then Ret tt else
  (* Check for uncommitted changes *)
  hasChanges <- checkGitStatus ;;
  onward' <-
    (if hasChanges then
       confirm "You have uncommitted changes. It's recommended to commit or stash them first."
     else Ret true) ;;
  if negb onward' then Ret tt else
  (* Run the workflow *)
  result <- runCommand (workflowCommand mode page) ;;
  if success result then
    updateStatusBar "success" ;;
    if get (notifyOnCompletion config) false then
      action <- await (Sys.ask "Visual regression tests passed!" ["Show Report"]) ;;
      when (isItem "Show Report" action) showReport
    else Ret tt
  else
    updateStatusBar "failed" ;;
    action <- await (Sys.ask
      "Visual regression tests detected differences"
      ["Show Report"; "Dismiss"]) ;;
    when (isItem "Show Report" action) showReport.

Definition runWorkflow (config : Settings) (mode : option Mode)
  (page : option string) : Task unit :=
  running <- host Sys.getIsRunning ;;
  if running then
    host (Sys.notify "Visual regression tests are already running")
  else
    tryFinally
      (tryCatch
         (attempt config mode page)
         (fun error =>
            updateStatusBar "failed" ;;
            host (Sys.notify ("Failed to run visual regression tests: "
                              ++ errorToString error))))
      (host (Sys.setIsRunning false)).

Definition cleanSnapshots : Task unit :=
  proceed <- await (Sys.ask
    "This will delete all visual regression snapshots. Continue?"
    ["Delete Snapshots"]) ;;
  if isItem "Delete Snapshots" proceed then
    result <- runCommand RmSnapshots ;;
    if success result then
      host (Sys.notify "Visual regression snapshots cleaned")
    else host (Sys.notify "Failed to clean snapshots")
  else Ret tt.

End VisualRegressionController.

(** ** extension.ts: the command handlers *)

Module Extension.

(** [s.split(/[,\n]/)] *)
Fixpoint split (s : string) : list string :=
  match s with
  | EmptyString => [EmptyString]
  | String c r =>
      if Ascii.eqb c "," || Ascii.eqb c (ascii_of_nat 10) then
        EmptyString :: split r
      else
        match split r with
        | piece :: pieces => String c piece :: pieces
        | [] => [String c EmptyString]
        end
  end.

Definition parseUrlPaths (urlInput : string) : list string :=
  filter (fun url => negb (Js.isEmpty url)) (map Js.trim (split urlInput)).

(** [visualRegression.runTest]: each invocation builds services and a
    [TestRunner] of its own and runs it. *)
Definition runTestCommand (config : Settings) (workspaceRoot : string)
  : Task unit :=
  urlInput <- await (Sys.input
    "Enter URL path(s) to test (comma-separated or one per line, e.g., /access-denied, /unauthorised)") ;;
  match urlInput with
  | None | Some EmptyString => Ret tt
  | Some text =>
      let urlPaths := parseUrlPaths text in
      local (fun _ => (tt, fresh)) ;;
      tryCatch
        (TestRunner.runTest config workspaceRoot urlPaths)
        (fun error =>
           host (Sys.notify ("Visual regression test failed: " ++ message error)))
  end.

(** [visualRegression.runWorkflow] *)
Definition runWorkflowCommand (config : Settings) : Task unit :=
  VisualRegressionController.runWorkflow config None None.

End Extension.

(** ** Concurrent invocations

    The extension host runs one thing at a time: a task started by a
    command runs to its first [await]; when the host completes an awaited
    operation, the task that waited for it runs on to its next [await].
    Other invocations may take their turns in between. *)

Module Scheduler.

(** Runs the synchronous part of a task, up to an [await] or the end. *)
Fixpoint advance {A} (t : Task A) (i : Inst) (w : World)
  : Task A * Inst * World :=
  match t with
  | Local f k => let (x, i') := f i in advance (k x) i' w
  | Host f k => let (x, w') := f w in advance (k x) i w'
  | _ => (t, i, w)
  end.

(** The host completes what the task awaits; the task runs on. *)
Definition resume {A} (t : Task A) (i : Inst) (w : World)
  : Task A * Inst * World :=
  match t with
  | Await f k =>
      match f w with
      | (Some x, w') => advance (k x) i w'
      | (None, w') => (t, i, w')
      end
  | _ => (t, i, w)
  end.

Inductive Tick :=
| Invoke (t : Task unit)
| Resume (n : nat).

Definition Pool := list (Task unit * Inst).

Fixpoint resumeNth (n : nat) (pool : Pool) (w : World) : Pool * World :=
  match pool, n with
  | [], _ => ([], w)
  | (t, i) :: rest, O =>
      let '(t', i', w') := resume t i w in ((t', i') :: rest, w')
  | slot :: rest, S m =>
      let (rest', w') := resumeNth m rest w in (slot :: rest', w')
  end.

Definition tick (k : Tick) (pool : Pool) (w : World) : Pool * World :=
  match k with
  | Invoke t => let '(t', i', w') := advance t fresh w in ((pool ++ [(t', i')])%list, w')
  | Resume n => resumeNth n pool w
  end.

Definition actor (k : Tick) (pool : Pool) : nat :=
  match k with
  | Invoke _ => length pool
  | Resume n => n
  end.

(** Plays a schedule; the history tells, turn by turn, which invocation
    ran and which host events it caused. *)
Fixpoint play (schedule : list Tick) (pool : Pool) (w : World)
  : list (nat * list Event) * Pool * World :=
  match schedule with
  | [] => ([], pool, w)
  | k :: later =>
      let (pool', w') := tick k pool w in
      let turn := (actor k pool, skipn (length (trace w)) (trace w')) in
      let '(history, pool'', w'') := play later pool' w' in
      (turn :: history, pool'', w'')
  end.

Definition finished (slot : Task unit * Inst) : bool :=
  match fst slot with
  | Ret _ | Throw _ => true
  | _ => false
  end.

(** The branch switches of a history, each with the invocation that made it. *)
Definition checkouts (history : list (nat * list Event)) : list (nat * string) :=
  flat_map
    (fun turn =>
       flat_map
         (fun e =>
            match e with
            | EvExec (GitCheckout b) _ => [(fst turn, b)]
            | _ => []
            end)
         (snd turn))
    history.

End Scheduler.

(** ** Reasoning about tasks

    [Built Inv Live t]: every host call of [t] keeps the invariant [Inv],
    and every await of [t] completes on a world where [Live] holds. *)

Section Shape.

Variable Inv : Inst -> World -> Prop.
Variable Live : World -> Prop.

Inductive Built {A : Type} : Task A -> Prop :=
| BuiltRet (a : A) : Built (Ret a)
| BuiltThrow (e : JsError) : Built (Throw e)
| BuiltLocal (X : Type) (f : Inst -> X * Inst) (k : X -> Task A) :
    (forall i w, Inv i w -> Inv (snd (f i)) w) ->
    (forall x, Built (k x)) ->
    Built (Local f k)
| BuiltHost (X : Type) (f : World -> X * World) (k : X -> Task A) :
    (forall i w, Inv i w -> Inv i (snd (f w))) ->
    (forall x, Built (k x)) ->
    Built (Host f k)
| BuiltAwait (X : Type) (f : World -> option X * World) (k : X -> Task A) :
    (forall i w, Inv i w -> Inv i (snd (f w))) ->
    (forall w, Live w -> fst (f w) <> None) ->
    (forall x, Built (k x)) ->
    Built (Await f k).

End Shape.

(** The events a run has added to the log since the world [w0]. *)
Definition since (w0 w : World) : list Event :=
  skipn (length (trace w0)) (trace w).

(** What running the [finally] block leaves of an outcome. *)
Definition afterwards {A} (o : Outcome A) (fin : Outcome unit * Inst * World)
  : Outcome A * Inst * World :=
  match fin with
  | (Resolved _, i, w) => (o, i, w)
  | (Rejected e, i, w) => (Rejected e, i, w)
  | (Pending, i, w) => (Pending, i, w)
  end.

(** ** Statements about the capture and compare adapter *)

(** What the runner started by the next host call exits with. *)
Definition runnerExit (c : Cmd) (w : World) : ExecResult :=
  tool (oracle w) (Sys.step w) c.

(** The error [updateSnapshots] throws for a failed runner [r]. *)
Definition captureError (testPath : string) (r : ExecResult) : JsError :=
  Error ("Playwright test failed: "
         ++ message (ExecError (render (PwUpdate testPath)) r) ++ nl
         ++ (if Js.isEmpty (stderr r) then stdout r else stderr r)).

(** The capture contract as the specification words it: the call completes
    exactly on exit code zero, and the error of a failed capture carries
    the combined output of the runner, that is, both of its streams. *)
Definition captureCarriesCombinedOutput (config : Settings)
  (urlPath : string) (port : N) (i : Inst) (w : World) : Prop :=
  let r := runnerExit (PwUpdate (get (testPath config) "tests/visual/pages.spec.ts")) w in
  match run (PlaywrightService.updateSnapshots config urlPath port) i w with
  | (Resolved _, _, _) => code r = 0%Z
  | (Rejected e, _, _) =>
      code r <> 0%Z
      /\ Js.includes (stdout r) (message e) = true
      /\ Js.includes (stderr r) (message e) = true
  | (Pending, _, _) => False
  end.

(** A host on which everything succeeds silently, with a test directory
    that holds a test file; the workspace is [/ws], the branch [feature]. *)
Definition quietTool : nat -> Cmd -> ExecResult := fun _ _ => mkExec 0 "" "".

(** A repository in which every name given to [git checkout -f] is a local
    branch that the shell passes on as it is; without a name, HEAD stays. *)
Definition asNamed : nat -> string -> option string :=
  fun _ name => if Js.isEmpty name then None else Some name.

Definition calm : Oracle :=
  mkOracle quietTool (fun _ _ => []) (fun n => Some (N.of_nat (1000 + n)))
           (fun _ => true) (fun _ => true) (fun _ => None)
           (fun _ => 1700000000000%N) asNamed.

Definition files : string -> option Node :=
  fun p => if String.eqb p "/ws/tests/visual"
           then Some (Dir ["pages.spec.ts"]) else None.

Definition hostWith (o : Oracle) : World :=
  mkWorld o [("PATH", "/usr/bin")] [] "feature" files false None.

Definition defaults : Settings :=
  mkSettings None None None None None None None.

(** A runner that fails and writes to both streams. *)
Definition failingRunner : Oracle :=
  mkOracle (fun _ c => match c with
                       | PwUpdate _ => mkExec 1 "3 screenshots differ" "boom"
                       | _ => mkExec 0 "" ""
                       end)
           (fun _ _ => []) (fun _ => Some 4242%N)
           (fun _ => true) (fun _ => true) (fun _ => None)
           (fun _ => 1700000000000%N) asNamed.

(** ** Inputs for the process supervisor *)

(** An invocation whose [ServerService] tracks a live server. *)
Definition tracking : Inst := mkInst (Some (mkProc (Some 4242%N))) "".

(** A host on which process 777 listens on port 3000. *)
Definition occupied : Oracle :=
  mkOracle quietTool (fun _ port => if (port =? 3000)%N then [777%N] else [])
           (fun _ => Some 4242%N) (fun _ => true) (fun _ => true)
           (fun _ => None) (fun _ => 1700000000000%N) asNamed.

(** A host on which process 777 listens on port 3000 and [lsof] is not
    installed. *)
Definition blind : Oracle :=
  mkOracle (fun _ c => match c with
                       | Lsof _ => mkExec 127 "" "/bin/sh: 1: lsof: not found"
                       | _ => mkExec 0 "" ""
                       end)
           (fun _ port => if (port =? 3000)%N then [777%N] else [])
           (fun _ => Some 4242%N) (fun _ => true) (fun _ => true)
           (fun _ => None) (fun _ => 1700000000000%N) asNamed.

(** The port conflict as the specification words it: a listener bound to
    the configured port makes [start] reject with the port-conflict error,
    with nothing spawned and the tracked handle unchanged. *)
Definition rejectsOnBoundPort (config : Settings) (i : Inst) (w : World)
  : Prop :=
  let port := get (serverPort config) 3000%N in
  listeners (oracle w) (Sys.step w) port <> [] ->
  run (ServerService.start config) i w
  = (Rejected (Error (ServerService.portInUseMessage port)), i,
     Sys.record (EvExec (Lsof port) (processEnv w)) w).

(** ** Invariants of the run sequence *)

(** The oracle is the one the run started with. *)
Definition steady (o : Oracle) : Inst -> World -> Prop :=
  fun _ w => oracle w = o.

(** Processes exit when they are stopped. *)
Definition responsive : World -> Prop :=
  fun w => forall n, exits (oracle w) n = true.

(** The active branch is [b]. *)
Definition onBranch (b : string) : Inst -> World -> Prop :=
  fun _ w => branch w = b.

(** No liveness is asked of the host. *)
Definition unasked : World -> Prop := fun _ => False.

(** A branch name as git accepts it, as far as the workflow depends on
    it: not empty and free of white space. *)
Fixpoint noSpace (s : string) : bool :=
  match s with
  | String c r => negb (Js.isSpace c) && noSpace r
  | EmptyString => true
  end.

Definition validBranch (b : string) : bool :=
  negb (Js.isEmpty b) && noSpace b.






(** Since [w0] the oracle is the same and the log has only grown. *)
Definition later (w0 : World) : Inst -> World -> Prop :=
  fun _ w => oracle w = oracle w0 /\ length (trace w0) <= length (trace w).



(** A host on which port 3000 is taken and the branch [feature] cannot be
    checked out again. *)
Definition stranding : Oracle :=
  mkOracle (fun _ c => match c with
                       | GitCheckout "feature" =>
                           mkExec 1 "" "error: unable to write new index file"
                       | _ => mkExec 0 "" ""
                       end)
           (fun _ port => if (port =? 3000)%N then [777%N] else [])
           (fun _ => Some 4242%N) (fun _ => true) (fun _ => true)
           (fun _ => None) (fun _ => 1700000000000%N) asNamed.


(** A repository whose active branch is [#123-fix]: to the shell the
    rest of a line from [#] on is a comment, so that [git checkout -f]
    runs without a name and leaves HEAD where it is. *)
Definition commenting : Oracle :=
  mkOracle quietTool (fun _ _ => []) (fun n => Some (N.of_nat (1000 + n)))
           (fun _ => true) (fun _ => true) (fun _ => None)
           (fun _ => 1700000000000%N)
           (fun _ name => match name with
                          | String "#" _ => None
                          | _ => asNamed 0 name
                          end).

Definition onHashBranch : World :=
  mkWorld commenting [("PATH", "/usr/bin")] [] "#123-fix" files false None.

(** ** Statements about validation *)

(** Host events that are neither a git command nor the start or the
    killing of a process. *)
Definition quiet (e : Event) : bool :=
  match e with
  | EvExec c _ => negb (isGit c)
  | EvSpawn _ _ _ | EvKillGroup _ | EvKill _ | EvKillPort _ => false
  | _ => true
  end.

(** The read-only probe [git rev-parse --git-dir]. *)
Definition isProbe (e : Event) : bool :=
  match e with
  | EvExec GitRevParse _ => true
  | _ => false
  end.

Definition quietOrProbe (e : Event) : bool := quiet e || isProbe e.

Definition notARepository : JsError :=
  Error "Not a Git repository. Please initialize git: git init".

(** Since [w0], the invocation's objects and the branch are untouched and
    the host has only seen events that pass [ok]. *)
Definition journal (ok : Event -> bool) (i0 : Inst) (w0 : World)
  : Inst -> World -> Prop :=
  fun i w =>
    i = i0 /\ branch w = branch w0
    /\ exists evs, trace w = (trace w0 ++ evs)%list /\ forallb ok evs = true.

(** Validation as the specification words it: when [validateSetup]
    throws, [runTest] throws the same error and nothing has happened: the
    tracked objects and the branch are as before, no process was started
    and no git command has run. *)
Definition validationFailureIsClean (config : Settings)
  (workspaceRoot : string) (urlPaths : list string) (i : Inst) (w : World)
  : Prop :=
  forall e i' w',
    run (TestRunner.validateSetup workspaceRoot
           (get (testPath config) "tests/visual")) i w
    = (Rejected e, i', w') ->
    run (TestRunner.runTest config workspaceRoot urlPaths) i w
    = (Rejected e, i', w')
    /\ i' = i /\ branch w' = branch w
    /\ forallb quiet (since w w') = true.

(** A host whose workspace is not a git repository. *)
Definition unversioned : Oracle :=
  mkOracle (fun _ c => match c with
                       | GitRevParse =>
                           mkExec 128 "" "fatal: not a git repository"
                       | _ => mkExec 0 "" ""
                       end)
           (fun _ _ => []) (fun _ => Some 4242%N)
           (fun _ => true) (fun _ => true) (fun _ => None)
           (fun _ => 1700000000000%N) asNamed.

(** A workspace without a test directory, and a user who dismisses every
    prompt. *)
Definition untested : World :=
  mkWorld calm [("PATH", "/usr/bin")] [] "feature" (fun _ => None) false None.

Definition noTestFiles : JsError :=
  Error "No test files found. Please add test files to continue.".

(** ** Statements about the staging directory *)

(** The staging directories the host was asked to create. *)
Definition stagingDirs (evs : list Event) : list string :=
  flat_map (fun e => match e with
                     | EvExec (CopyToTemp d) _ => [d]
                     | _ => []
                     end) evs.

(** Removing a directory succeeds whenever it is tried. *)
Definition removeWorks (w : World) : Prop :=
  forall n d, code (tool (oracle w) n (RmRf d)) = 0%Z.

(** Every staging directory created since [w0] is gone in [w]. *)
Definition cleared (w0 w : World) : Prop :=
  forall d, In d (stagingDirs (since w0 w)) -> fs w d = None.

(** The staging invariant as the specification words it: after a run that
    settles, no staging directory of the run is left. *)
Definition stagingRemoved (config : Settings) (workspaceRoot : string)
  (urlPaths : list string) (i : Inst) (w : World) : Prop :=
  settled (fst (fst (run (TestRunner.runTest config workspaceRoot urlPaths) i w)))
  = true ->
  cleared w (snd (run (TestRunner.runTest config workspaceRoot urlPaths) i w)).

(** Since [w0] the oracle is unchanged, and the [tmpDir] variable and the
    staging directories created so far are related by [P]. *)
Definition ledger (w0 : World) (P : string -> list string -> Prop)
  : Inst -> World -> Prop :=
  fun i w =>
    oracle w = oracle w0
    /\ exists evs, trace w = (trace w0 ++ evs)%list
                   /\ P (tmpDir i) (stagingDirs evs).

Definition uncopied (w0 : World) := ledger w0 (fun _ dirs => dirs = []).

Definition unstaged (w0 : World) :=
  ledger w0 (fun d dirs => d = "" /\ dirs = []).

Definition stagedAt (w0 : World) (d0 : string) :=
  ledger w0 (fun d dirs => d = d0 /\ Js.isEmpty d0 = false /\ dirs = [d0]).

Definition tracked (w0 : World) :=
  ledger w0 (fun d dirs =>
               (d = "" /\ dirs = []) \/ (Js.isEmpty d = false /\ dirs = [d])).

(** A host on which [rm -rf] fails. *)
Definition clinging : Oracle :=
  mkOracle (fun _ c => match c with
                       | RmRf _ => mkExec 1 "" "rm: cannot remove"
                       | _ => mkExec 0 "" ""
                       end)
           (fun _ _ => []) (fun n => Some (N.of_nat (1000 + n)))
           (fun _ => true) (fun _ => true) (fun _ => None)
           (fun _ => 1700000000000%N) asNamed.

Definition trackedAfter (w0 : World) (r : Outcome unit * Inst * World) : Prop :=
  tracked w0 (snd (fst r)) (snd r).

(** ** Inputs for the controller and for concurrent invocations *)



(** A user who types "/" into every input box and dismisses the other
    prompts. *)
Definition typing : Oracle :=
  mkOracle quietTool (fun _ _ => []) (fun n => Some (N.of_nat (1000 + n)))
           (fun _ => true) (fun _ => true) (fun _ => Some "/")
           (fun _ => 1700000000000%N) asNamed.

(** The command [visualRegression.runTest] is invoked; seven awaited
    operations later, when the first invocation has checked out the
    baseline branch, it is invoked again.  The second invocation goes as
    far, the first runs to its end, then the second does. *)
Definition twoRuns : list Scheduler.Tick :=
  (Scheduler.Invoke (Extension.runTestCommand defaults "/ws")
   :: repeat (Scheduler.Resume 0) 7
   ++ Scheduler.Invoke (Extension.runTestCommand defaults "/ws")
   :: repeat (Scheduler.Resume 1) 7
   ++ repeat (Scheduler.Resume 0) 13
   ++ repeat (Scheduler.Resume 1) 13)%list.

(** The command [visualRegression.runWorkflow] is invoked, and invoked
    again while the first invocation waits for git. *)
Definition twoWorkflows : list Scheduler.Tick :=
  [ Scheduler.Invoke (Extension.runWorkflowCommand defaults);
    Scheduler.Invoke (Extension.runWorkflowCommand defaults);
    Scheduler.Resume 0; Scheduler.Resume 0; Scheduler.Resume 0 ].

(** A checkout of a commit rather than a branch: no branch is active. *)
Definition detached : World :=
  mkWorld calm [("PATH", "/usr/bin")] [] "" files false None.

(** ** Statements for the further properties *)

(** Reading an escaped pattern back as a regular expression reads it: a
    backslash makes the character after it literal. *)
Fixpoint unescape (s : string) : string :=
  match s with
  | String "\"%char (String c r) => String c (unescape r)
  | String c r => String c (unescape r)
  | EmptyString => EmptyString
  end.

Fixpoint allChars (p : ascii -> bool) (s : string) : bool :=
  match s with
  | String c r => p c && allChars p r
  | EmptyString => true
  end.

(** [env[k]] *)
Fixpoint getVar (k : string) (env : EnvVars) : option string :=
  match env with
  | [] => None
  | (k', v) :: rest => if String.eqb k' k then Some v else getVar k rest
  end.

(** The value a variable has for a child process that is given
    [{...base, ...extra}]: the last entry of [extra], else that of [base]. *)
Definition merged (k : string) (base extra : EnvVars) : option string :=
  match getVar k (rev extra) with
  | Some v => Some v
  | None => getVar k base
  end.

(** A URL path as the input box expects it between separators: not empty,
    without white space and without a comma. *)
Definition isSeparator (c : ascii) : bool :=
  Ascii.eqb c "," || Ascii.eqb c (ascii_of_nat 10).

Definition cleanPath (p : string) : bool :=
  negb (Js.isEmpty p)
  && allChars (fun c => negb (Js.isSpace c) && negb (Ascii.eqb c ",")) p.

(** An escaped pattern consists of escaped characters and of characters
    that are not special. *)
Fixpoint escaped (s : string) : bool :=
  match s with
  | String "\"%char (String c r) => escaped r
  | String c r => negb (PlaywrightService.isRegexSpecial c) && escaped r
  | EmptyString => true
  end.

(** The signals [stop] sends for a tracked handle: the process group is
    signalled when the handle has a process id, and the handle itself when
    that throws. *)
Definition stopSignals (child : Proc) (w : World) : list Event :=
  match pid child with
  | Some n =>
      if (n =? 0)%N then []
      else if groupKill (oracle w) (Sys.step w) then [EvKillGroup n]
      else [EvKillGroup n; EvKill child]
  | None => []
  end.

Definition stagingPath (w : World) : string :=
  "/tmp/visual-regression-baseline-" ++ Js.ofN (now (oracle w) (Sys.step w)).

(** A task in which no [throw] is left uncaught. *)
Inductive NoThrow {A : Type} : Task A -> Prop :=
| NoThrowRet (a : A) : NoThrow (Ret a)
| NoThrowLocal (X : Type) (f : Inst -> X * Inst) (k : X -> Task A) :
    (forall x, NoThrow (k x)) -> NoThrow (Local f k)
| NoThrowHost (X : Type) (f : World -> X * World) (k : X -> Task A) :
    (forall x, NoThrow (k x)) -> NoThrow (Host f k)
| NoThrowAwait (X : Type) (f : World -> option X * World) (k : X -> Task A) :
    (forall x, NoThrow (k x)) -> NoThrow (Await f k).

Definition rejected {A} (o : Outcome A) : bool :=
  match o with Rejected _ => true | _ => false end.


(** A folder that is not a repository, and a user on the baseline branch
    who dismisses every prompt. *)
Definition outsideRepository : Oracle :=
  mkOracle (fun _ c => match c with
                       | GitShowCurrent =>
                           mkExec 128 "" "fatal: not a git repository"
                       | _ => mkExec 0 "" ""
                       end)
           (fun _ _ => []) (fun _ => Some 4242%N)
           (fun _ => true) (fun _ => true) (fun _ => None)
           (fun _ => 1700000000000%N) asNamed.

Definition onMain : World :=
  mkWorld calm [("PATH", "/usr/bin")] [] "main" files false None.

(** ** Statements about the servers of a run *)

Definition sameProc (a b : Proc) : bool :=
  match pid a, pid b with
  | Some m, Some n => (m =? n)%N
  | None, None => true
  | _, _ => false
  end.

(** [stop] signals a process only when its handle has a process id. *)
Definition needsSignal (child : Proc) : bool :=
  match pid child with
  | Some n => negb (n =? 0)%N
  | None => false
  end.

(** The server of a run as its log shows it: none is running, or [child]
    is, signalled for termination or not yet; [Lost] when the log shows
    what a supervisor must not do. *)
Inductive Custody :=
| Idle
| Running (child : Proc) (signalled : bool)
| Lost.

(** Reading one event.  A server is started with the command line
    [command], and only while none is running; the process group that is
    signalled is that of the running server, and so is the handle that is
    killed; the exit awaited is that of the running server, after it has
    been signalled if it has a process id.  Other events, the start of
    another program among them, leave the server as it is. *)
Definition custodyStep (command : string) (c : Custody) (e : Event) : Custody :=
  match e with
  | EvSpawn line _ child =>
      if String.eqb line command then
        match c with
        | Idle => Running child (negb (needsSignal child))
        | _ => Lost
        end
      else c
  | EvKillGroup n =>
      match c with
      | Running child _ =>
          match pid child with
          | Some m => if (m =? n)%N then Running child true else Lost
          | None => Lost
          end
      | _ => Lost
      end
  | EvKill p =>
      match c with
      | Running child signalled =>
          if sameProc p child then Running child signalled else Lost
      | _ => Lost
      end
  | EvExitWait p =>
      match c with
      | Running child true => if sameProc p child then Idle else Lost
      | _ => Lost
      end
  | _ => c
  end.

Definition custody (command : string) (evs : list Event) : Custody :=
  fold_left (custodyStep command) evs Idle.

(** Events that do not concern the server. *)
Definition apart (command : string) (e : Event) : bool :=
  match e with
  | EvSpawn line _ _ => negb (String.eqb line command)
  | EvKillGroup _ | EvKill _ | EvExitWait _ => false
  | _ => true
  end.

(** Since [w0], the tracked handle and the log of the host agree in the
    way [Q] says. *)
Definition watch (command : string) (w0 : World)
  (Q : option Proc -> Custody -> Prop) : Inst -> World -> Prop :=
  fun i w =>
    oracle w = oracle w0
    /\ exists evs,
         trace w = (trace w0 ++ evs)%list
         /\ Q (serverProcess i) (custody command evs).

Definition idle (command : string) (w0 : World) :=
  watch command w0 (fun h c => h = None /\ c = Idle).

Definition serving (command : string) (w0 : World) :=
  watch command w0
    (fun h c => exists child,
                  h = Some child
                  /\ c = Running child (negb (needsSignal child))).

Definition held (command : string) (w0 : World) :=
  watch command w0
    (fun h c => (h = None /\ c = Idle)
                \/ exists child,
                     h = Some child
                     /\ c = Running child (negb (needsSignal child))).

(** After the [try] block of a run: no server is running when it has
    completed, and the supervisor holds the one that is running when it
    has thrown. *)
Definition custodyAfter (command : string) (w0 : World)
  (r : Outcome unit * Inst * World) : Prop :=
  match r with
  | (Resolved _, i, w) => idle command w0 i w
  | (Rejected _, i, w) => held command w0 i w
  | (Pending, _, _) => True
  end.

(** * Properties *)

(** ** How [run] goes through the combinators *)

Lemma run_bind {A B} (t : Task A) (g : A -> Task B) i w :
  run (bind t g) i w =
  match run t i w with
  | (Resolved a, i', w') => run (g a) i' w'
  | (Rejected e, i', w') => (Rejected e, i', w')
  | (Pending, i', w') => (Pending, i', w')
  end.
Proof.
  revert i w.
  induction t as [a|e|X f k IH|X f k IH|X f k IH]; intros i w; simpl; auto.
  - destruct (f i) as [x i']. apply IH.
  - destruct (f w) as [x w']. apply IH.
  - destruct (f w) as [[x|] w']; auto.
Qed.

Lemma run_tryCatch {A} (t : Task A) (h : JsError -> Task A) i w :
  run (tryCatch t h) i w =
  match run t i w with
  | (Resolved a, i', w') => (Resolved a, i', w')
  | (Rejected e, i', w') => run (h e) i' w'
  | (Pending, i', w') => (Pending, i', w')
  end.
Proof.
  revert i w.
  induction t as [a|e|X f k IH|X f k IH|X f k IH]; intros i w; simpl; auto.
  - destruct (f i) as [x i']. apply IH.
  - destruct (f w) as [x w']. apply IH.
  - destruct (f w) as [[x|] w']; auto.
Qed.

Lemma run_tryFinally {A} (t : Task A) (fin : Task unit) i w :
  run (tryFinally t fin) i w =
  match run t i w with
  | (Pending, i', w') => (Pending, i', w')
  | (o, i', w') => afterwards o (run fin i' w')
  end.
Proof.
  revert i w.
  induction t as [a|e|X f k IH|X f k IH|X f k IH]; intros i w; simpl.
  - rewrite run_bind. destruct (run fin i w) as [[[]] ]; reflexivity.
  - rewrite run_bind. destruct (run fin i w) as [[[]] ]; reflexivity.
  - destruct (f i) as [x i']. apply IH.
  - destruct (f w) as [x w']. apply IH.
  - destruct (f w) as [[x|] w']; auto.
Qed.

(** ** Invariants of built tasks *)

Section ShapeFacts.

Variable Inv : Inst -> World -> Prop.
Variable Live : World -> Prop.

Lemma built_bind {A B} (t : Task A) (g : A -> Task B) :
  Built Inv Live t -> (forall a, Built Inv Live (g a)) ->
  Built Inv Live (bind t g).
Proof.
  intros Ht Hg. induction Ht; simpl; auto; constructor; auto.
Qed.

Lemma built_tryCatch {A} (t : Task A) (h : JsError -> Task A) :
  Built Inv Live t -> (forall e, Built Inv Live (h e)) ->
  Built Inv Live (tryCatch t h).
Proof.
  intros Ht Hh. induction Ht; simpl; auto; constructor; auto.
Qed.

Lemma built_tryFinally {A} (t : Task A) (fin : Task unit) :
  Built Inv Live t -> Built Inv Live fin ->
  Built Inv Live (tryFinally t fin).
Proof.
  intros Ht Hf. induction Ht; simpl.
  - apply built_bind; auto. intros _. constructor.
  - apply built_bind; auto. intros _. constructor.
  - constructor; auto.
  - constructor; auto.
  - constructor; auto.
Qed.

Lemma built_local {X} (f : Inst -> X * Inst) :
  (forall i w, Inv i w -> Inv (snd (f i)) w) -> Built Inv Live (local f).
Proof. intros H. constructor; auto. intros x. constructor. Qed.

Lemma built_host {X} (f : World -> X * World) :
  (forall i w, Inv i w -> Inv i (snd (f w))) -> Built Inv Live (host f).
Proof. intros H. constructor; auto. intros x. constructor. Qed.

Lemma built_await {X} (f : World -> option X * World) :
  (forall i w, Inv i w -> Inv i (snd (f w))) ->
  (forall w, Live w -> fst (f w) <> None) ->
  Built Inv Live (await f).
Proof. intros H1 H2. constructor; auto. intros x. constructor. Qed.

Lemma built_when (b : bool) (t : Task unit) :
  Built Inv Live t -> Built Inv Live (when b t).
Proof. intros H. destruct b; simpl; auto. constructor. Qed.

(** A built task keeps the invariant, however it ends. *)
Lemma built_inv {A} (t : Task A) :
  Built Inv Live t ->
  forall i w, Inv i w ->
  Inv (snd (fst (run t i w))) (snd (run t i w)).
Proof.
  induction 1 as [a|e|X f k Hf Hk IH|X f k Hf Hk IH|X f k Hf Hl Hk IH];
    intros i w Hi; simpl; auto.
  - specialize (Hf i w Hi). destruct (f i) as [x i']. apply IH; auto.
  - specialize (Hf i w Hi). destruct (f w) as [x w']. apply IH; auto.
  - specialize (Hf i w Hi). destruct (f w) as [[x|] w']; simpl in *; auto.
Qed.


End ShapeFacts.

(** ** The reference-image file name *)

(** The class of the regular expression, given by its three ranges and
    two single characters, is the class of the specification: checked on
    each of the 256 characters. *)
Lemma inClass_spec (c : ascii) : Template.inClass c = Template.inSpecClass c.
Proof. destruct c as [[] [] [] [] [] [] [] []]; vm_compute; reflexivity. Qed.

Lemma deriveChar_passes (c : ascii) :
  (let d := if Ascii.eqb c "/" then "-"%char else c in
   if Template.inClass d then d else "_"%char) = Template.deriveChar c.
Proof.
  unfold Template.deriveChar. rewrite <- inClass_spec.
  destruct (Ascii.eqb c "/"); reflexivity.
Qed.

Lemma passes_fuse (s : string) :
  Template.specialsToUnderscores (Template.slashesToHyphens s)
  = Js.mapChars Template.deriveChar s.
Proof.
  unfold Template.specialsToUnderscores, Template.slashesToHyphens.
  induction s as [|c r IH]; simpl; [reflexivity|].
  rewrite IH. f_equal. apply deriveChar_passes.
Qed.

Lemma deriveChar_inClass (c : ascii) :
  Template.inSpecClass (Template.deriveChar c) = true.
Proof.
  unfold Template.deriveChar.
  destruct (Ascii.eqb c "/"); [reflexivity|].
  destruct (Template.inSpecClass c) eqn:E; [exact E|reflexivity].
Qed.

(** All characters of a string satisfy a test. *)
Lemma mapChars_all (f : ascii -> ascii) (p : ascii -> bool) (s : string) :
  (forall c, p (f c) = true) ->
  forallb p (list_ascii_of_string (Js.mapChars f s)) = true.
Proof.
  intros H. induction s as [|c r IH]; simpl; [reflexivity|].
  rewrite H, IH. reflexivity.
Qed.

Lemma deriveChar_kept (c : ascii) :
  Template.inSpecClass c = true -> Template.deriveChar c = c.
Proof.
  intros H. unfold Template.deriveChar.
  destruct (Ascii.eqb_spec c "/") as [->|_]; [discriminate H|].
  rewrite H. reflexivity.
Qed.

Lemma mapChars_kept (s : string) :
  forallb Template.inSpecClass (list_ascii_of_string s) = true ->
  Js.mapChars Template.deriveChar s = s.
Proof.
  induction s as [|c r IH]; simpl; [reflexivity|].
  intros H. apply andb_true_iff in H. destruct H as [H1 H2].
  rewrite (deriveChar_kept c H1), (IH H2). reflexivity.
Qed.

Lemma filename_named (urlPath : string) :
  Template.filename urlPath <> ""
  /\ forallb Template.inSpecClass
       (list_ascii_of_string (Template.filename urlPath)) = true.
Proof.
  unfold Template.filename. rewrite passes_fuse.
  set (rest := Template.removeLeadingSlash urlPath).
  pose proof (mapChars_all Template.deriveChar Template.inSpecClass rest
                deriveChar_inClass) as A.
  destruct (Js.mapChars Template.deriveChar rest); simpl.
  - split; [discriminate|reflexivity].
  - split; [discriminate|exact A].
Qed.

Lemma name_is_fixed (name : string) :
  name <> "" ->
  forallb Template.inSpecClass (list_ascii_of_string name) = true ->
  Template.filename name = name
  /\ Template.filename (String "/" name) = name.
Proof.
  intros N A. unfold Template.filename. rewrite !passes_fuse.
  destruct name as [|c r]; [congruence|].
  assert (R : Template.removeLeadingSlash (String c r) = String c r).
  { simpl in A. apply andb_true_iff in A. destruct A as [A _].
    destruct c as [[] [] [] [] [] [] [] []]; try discriminate A; reflexivity. }
  rewrite R. simpl Template.removeLeadingSlash.
  rewrite (mapChars_kept _ A). split; reflexivity.
Qed.

(** C2. The file name of a reference image is a function of the URL path
    alone: one leading slash is removed, every remaining slash becomes a
    hyphen, every character outside [A-Za-z0-9_-] becomes an underscore,
    and an empty result is replaced by "homepage".  The three passes of the
    source, with the class of its regular expression, agree on every path
    with the one-pass reading of the specification, with the 64 characters
    of its class; the result is never empty and consists of these 64
    characters only; a character of the path that is one of them and is
    not the removed slash is kept as it is; and "/", "/a/b", "/a?b" and the
    empty path give "homepage", "a-b", "a_b" and "homepage". *)
Theorem filename_derivation :
  (forall urlPath, Template.filename urlPath = Template.filename_spec urlPath)
  /\ (forall urlPath, Template.filename urlPath <> "")
  /\ (forall urlPath,
        forallb Template.inSpecClass
          (list_ascii_of_string (Template.filename urlPath)) = true)
  /\ (forall name,
        name <> "" ->
        forallb Template.inSpecClass (list_ascii_of_string name) = true ->
        Template.filename (String "/" name) = name)
  /\ Template.filename "/" = "homepage"
  /\ Template.filename "/a/b" = "a-b"
  /\ Template.filename "/a?b" = "a_b"
  /\ Template.filename "" = "homepage".
Proof.
  assert (E : forall urlPath,
             Template.filename urlPath = Template.filename_spec urlPath).
  { intros s. unfold Template.filename, Template.filename_spec.
    rewrite passes_fuse.
    replace (Template.removeLeadingSlash s)
      with (match s with String "/"%char r => r | _ => s end)
      by reflexivity.
    destruct (Js.mapChars _ _); reflexivity. }
  split; [exact E|].
  split; [|split; [|split; [|repeat split; reflexivity]]].
  - intros s. apply filename_named.
  - intros s. apply filename_named.
  - intros name N A. apply (name_is_fixed N A).
Qed.

Lemma filename_derivation_witness :
  Template.filename "/Users-v2_Page1" = "Users-v2_Page1".
Proof.
  destruct filename_derivation as (_ & _ & _ & K & _).
  apply K; [discriminate|reflexivity].
Defined.

(** ** The capture and compare adapter *)

(** C4. [runTests] never rejects: whatever the runner exits with, the call
    resolves with [success] equal to (exit code = 0) and with both output
    streams of the runner, stdout followed by stderr, in [output]; the
    tracked objects of the invocation are left as they were. *)
Theorem runTests_never_raises (config : Settings) (urlPath : string)
  (port : N) (i : Inst) (w : World) :
  let r := runnerExit (PwTest (get (testPath config) "tests/visual/pages.spec.ts")) w in
  exists w',
    run (PlaywrightService.runTests config urlPath port) i w
    = (Resolved (PlaywrightService.mkTestResult
                   (code r =? 0)%Z (stdout r ++ stderr r)), i, w').
Proof.
  unfold runnerExit, PlaywrightService.runTests. cbn.
  destruct (code _ =? 0)%Z; cbn; eexists; reflexivity.
Qed.

(** C5, as amended.  [updateSnapshots] resolves exactly when the runner
    exits with zero.  When it does not, the call rejects with an error
    whose text is the command line and the runner's stderr, followed by
    the stderr again, or by the stdout when the stderr is empty: the
    stdout of a runner that also wrote to stderr is not carried. *)
Theorem updateSnapshots_outcome (config : Settings) (urlPath : string)
  (port : N) (i : Inst) (w : World) :
  let testPath := get (testPath config) "tests/visual/pages.spec.ts" in
  let r := runnerExit (PwUpdate testPath) w in
  exists w',
    run (PlaywrightService.updateSnapshots config urlPath port) i w
    = (if (code r =? 0)%Z then Resolved tt
       else Rejected (captureError testPath r), i, w').
Proof.
  unfold runnerExit, PlaywrightService.updateSnapshots, captureError. cbn.
  destruct (code _ =? 0)%Z; cbn; [eexists; reflexivity|].
  destruct (stderr _); cbn; eexists; reflexivity.
Qed.

(** C5, as stated, fails: a runner that exits with 1 after writing
    "3 screenshots differ" to stdout and "boom" to stderr makes
    [updateSnapshots] reject with an error that does not hold the stdout. *)
Lemma updateSnapshots_drops_stdout :
  ~ captureCarriesCombinedOutput defaults "/" 3000 fresh (hostWith failingRunner).
Proof.
  unfold captureCarriesCombinedOutput. vm_compute.
  intros [_ [H _]]. discriminate H.
Qed.

(** ** Single calls *)

Lemma run_ret {A} (a : A) i w : run (Ret a) i w = (Resolved a, i, w).
Proof. reflexivity. Qed.

Lemma run_throw {A} (e : JsError) i w :
  run (@Throw A e) i w = (Rejected e, i, w).
Proof. reflexivity. Qed.

Lemma run_execAsync c env i w :
  run (execAsync c env) i w
  = (if (code (Sys.outcomeOf c w) =? 0)%Z
     then Resolved (Sys.outcomeOf c w)
     else Rejected (ExecError (render c) (Sys.outcomeOf c w)),
     i, snd (Sys.exec c env w)).
Proof.
  unfold execAsync, await, Sys.exec. simpl.
  destruct (code (Sys.outcomeOf c w) =? 0)%Z; reflexivity.
Qed.

(** ** The process supervisor *)

Lemma ofN_head (n : N) :
  exists c r, Js.ofN n = String c r /\ Js.isSpace c = false.
Proof.
  unfold Js.ofN.
  assert (H : N.to_uint n <> Decimal.Nil).
  { destruct n as [|p]; simpl; [discriminate|].
    apply DecimalPos.Unsigned.to_uint_nonnil. }
  destruct (N.to_uint n); try congruence; simpl;
    eexists; eexists; split; reflexivity.
Qed.

Lemma trim_head (c : ascii) (r : string) :
  Js.isSpace c = false -> Js.isEmpty (Js.trim (String c r)) = false.
Proof.
  intros H. unfold Js.trim. simpl. rewrite H. simpl.
  destruct (Js.trimEnd r); [rewrite H|]; reflexivity.
Qed.

(** What [lsof] prints for a port with a listener is not blank. *)
Lemma listing_not_blank (p : N) (ps : list N) :
  Js.isEmpty (Js.trim (Sys.listing (p :: ps))) = false.
Proof.
  destruct (ofN_head p) as (c & r & E & Hc).
  unfold Sys.listing. simpl. rewrite E.
  destruct (map _ ps); simpl; apply trim_head; exact Hc.
Qed.

(** The probe of [start]: [lsof] has to run, and has to list a process,
    for the port to read as taken. *)
Lemma isPortInUse_run (port : N) i w :
  run (ServerService.isPortInUse port) i w
  = (Resolved ((code (tool (oracle w) (Sys.step w) (Lsof port)) =? 0)%Z
               && match listeners (oracle w) (Sys.step w) port with
                  | [] => false
                  | _ :: _ => true
                  end),
     i, Sys.record (EvExec (Lsof port) (processEnv w)) w).
Proof.
  unfold ServerService.isPortInUse.
  rewrite run_tryCatch, run_bind, run_execAsync.
  unfold Sys.outcomeOf, Sys.exec.
  destruct (code (tool (oracle w) (Sys.step w) (Lsof port)) =? 0)%Z eqn:T.
  - destruct (listeners (oracle w) (Sys.step w) port) as [|p ps] eqn:E.
    + simpl. rewrite T, E. reflexivity.
    + pose proof (listing_not_blank p ps) as L.
      simpl. rewrite T, E. cbn in *. rewrite L. reflexivity.
  - simpl. rewrite T. simpl. rewrite T. reflexivity.
Qed.

(** C3, as amended.  When [lsof] runs and the configured port has a
    listener, [start] rejects with the port-conflict error.  The only host
    call it has made is the [lsof] probe: no process is spawned, and the
    objects of the invocation, the tracked handle among them, are as
    before the call. *)
Theorem start_rejects_on_bound_port (config : Settings) (i : Inst) (w : World) :
  let port := get (serverPort config) 3000%N in
  code (tool (oracle w) (Sys.step w) (Lsof port)) = 0%Z ->
  listeners (oracle w) (Sys.step w) port <> [] ->
  run (ServerService.start config) i w
  = (Rejected (Error (ServerService.portInUseMessage port)), i,
     Sys.record (EvExec (Lsof port) (processEnv w)) w).
Proof.
  intros port T H. unfold ServerService.start. fold port.
  rewrite run_bind, isPortInUse_run, T.
  destruct (listeners (oracle w) (Sys.step w) port) as [|p ps];
    [congruence|reflexivity].
Qed.

Lemma start_rejects_on_bound_port_witness :
  run (ServerService.start defaults) tracking (hostWith occupied)
  = (Rejected (Error (ServerService.portInUseMessage 3000)), tracking,
     Sys.record (EvExec (Lsof 3000) (processEnv (hostWith occupied)))
                (hostWith occupied)).
Proof.
  apply (start_rejects_on_bound_port defaults tracking (hostWith occupied)).
  - reflexivity.
  - vm_compute. discriminate.
Defined.

(** C3, as stated, fails.  On a host where process 777 listens on port
    3000 and [lsof] is not installed, the shell exits with 127, the probe
    reads that as a free port, and [start] resolves after spawning the
    server. *)
Lemma start_misses_listener :
  ~ rejectsOnBoundPort defaults fresh (hostWith blind).
Proof.
  unfold rejectsOnBoundPort. intros H.
  assert (L : listeners (oracle (hostWith blind)) (Sys.step (hostWith blind)) 3000
              <> []) by (vm_compute; discriminate).
  specialize (H L). vm_compute in H. discriminate H.
Qed.

(** What the run of the lemma above is: the probe, then the spawn. *)
Lemma start_on_blind_host :
  run (ServerService.start defaults) fresh (hostWith blind)
  = (Resolved tt, mkInst (Some (mkProc (Some 4242%N))) "",
     Sys.record (EvSpawn "npm run dev" [("PATH", "/usr/bin")]
                         (mkProc (Some 4242%N)))
       (Sys.record (EvExec (Lsof 3000) [("PATH", "/usr/bin")])
          (hostWith blind))).
Proof. reflexivity. Qed.

(** C8. [stop] with no tracked server resolves and changes nothing; and
    whenever a [stop] has resolved, no server is tracked any more, so that
    a further [stop] resolves and changes nothing. *)
Theorem stop_idempotent (i : Inst) (w : World) :
  (serverProcess i = None ->
   run ServerService.stop i w = (Resolved tt, i, w))
  /\ (forall i' w',
        run ServerService.stop i w = (Resolved tt, i', w') ->
        serverProcess i' = None
        /\ run ServerService.stop i' w' = (Resolved tt, i', w')).
Proof.
  split.
  - intros H. destruct i as [p d]. simpl in H. subst p. reflexivity.
  - intros i' w' H.
    assert (N : serverProcess i' = None).
    { destruct i as [[[[n|]]|] d]; cbn in H.
      - destruct (n =? 0)%N; cbn in H.
        + destruct (exits _ _); cbn in H; inversion H; reflexivity.
        + destruct (groupKill _ _); cbn in H;
            destruct (exits _ _); cbn in H; inversion H; reflexivity.
      - destruct (exits _ _); cbn in H; inversion H; reflexivity.
      - inversion H. reflexivity. }
    split; [exact N|].
    destruct i' as [p d]. simpl in N. subst p. reflexivity.
Qed.

Lemma stop_idempotent_witness :
  run ServerService.stop fresh (hostWith calm)
  = (Resolved tt, fresh, hostWith calm)
  /\ run ServerService.stop
       (snd (fst (run ServerService.stop tracking (hostWith calm))))
       (snd (run ServerService.stop tracking (hostWith calm)))
     = (Resolved tt,
        snd (fst (run ServerService.stop tracking (hostWith calm))),
        snd (run ServerService.stop tracking (hostWith calm))).
Proof.
  split.
  - apply (proj1 (stop_idempotent fresh (hostWith calm))). reflexivity.
  - apply (proj2 (stop_idempotent tracking (hostWith calm))). reflexivity.
Defined.

(** ** Building blocks of the workflow *)

Create HintDb tasks.

#[export] Hint Unfold
  execAsync wait
  GitService.getCurrentBranch GitService.checkout GitService.clearSnapshots
  GitService.saveSnapshotsToTemp GitService.restoreSnapshotsFromTemp
  GitService.cleanupTemp
  ServerService.isPortInUse ServerService.stop ServerService.start
  ServerService.killPort
  PlaywrightService.updateSnapshots PlaywrightService.runTests
  PlaywrightService.updateAllSnapshots PlaywrightService.runAllTests
  TestRunner.readdirSync TestRunner.createTemplateTestFile
  TestRunner.validateSetup TestRunner.showHtmlReport TestRunner.sequence
  TestRunner.recover TestRunner.cleanup TestRunner.runTest
  VisualRegressionController.updateStatusBar
  VisualRegressionController.checkGitStatus
  VisualRegressionController.getCurrentBranch
  VisualRegressionController.runCommand
  VisualRegressionController.showReport
  VisualRegressionController.confirm
  VisualRegressionController.attempt
  VisualRegressionController.runWorkflow
  : tasks.

(** Splits a goal [Built Inv Live t] along the structure of [t], leaving
    the obligations of the host calls. *)
Ltac built_step :=
  lazymatch goal with
  | |- Built _ _ (bind _ _) => apply built_bind; [|intros]
  | |- Built _ _ (tryCatch _ _) => apply built_tryCatch; [|intros]
  | |- Built _ _ (tryFinally _ _) => apply built_tryFinally
  | |- Built _ _ (when _ _) => apply built_when
  | |- Built _ _ (local _) => apply built_local
  | |- Built _ _ (host _) => apply built_host
  | |- Built _ _ (await _) => apply built_await
  | |- Built _ _ (Ret _) => apply BuiltRet
  | |- Built _ _ (Throw _) => apply BuiltThrow
  | |- Built _ _ (match ?x with _ => _ end) => destruct x
  | |- Built _ _ _ => progress (autounfold with tasks; cbv zeta)
  end.

Ltac built := repeat built_step.

(** ** What a host call leaves alone *)

Lemma exec_oracle c env w : oracle (snd (Sys.exec c env w)) = oracle w.
Proof.
  unfold Sys.exec. simpl.
  destruct (code _ =? 0)%Z; [|reflexivity].
  destruct c; simpl; try reflexivity.
  destruct (landing _ _ _); reflexivity.
Qed.

Lemma exec_trace c env w :
  trace (snd (Sys.exec c env w))
  = (trace w
     ++ [EvExec c (match env with Some e => e | None => processEnv w end)])%list.
Proof.
  unfold Sys.exec. simpl.
  destruct (code _ =? 0)%Z; [|reflexivity].
  destruct c; simpl; try reflexivity.
  destruct (landing _ _ _); reflexivity.
Qed.

Lemma exec_branch c env w :
  (forall b, c <> GitCheckout b) ->
  branch (snd (Sys.exec c env w)) = branch w.
Proof.
  intros H. unfold Sys.exec. simpl.
  destruct (code _ =? 0)%Z; [|reflexivity].
  destruct c; simpl; try reflexivity.
  exfalso. eapply H. reflexivity.
Qed.

Lemma exec_completes c env w : fst (Sys.exec c env w) <> None.
Proof. unfold Sys.exec. simpl. discriminate. Qed.

Lemma exitOf_completes child w :
  (forall n, exits (oracle w) n = true) -> fst (Sys.exitOf child w) <> None.
Proof. intros H. unfold Sys.exitOf. simpl. rewrite H. discriminate. Qed.

(** Settles the obligation of one host call. *)
Ltac leaf :=
  intros;
  rewrite ?exec_oracle;
  try rewrite exec_branch by (intros ?; discriminate);
  first [ assumption
        | apply exec_completes
        | apply exitOf_completes; assumption
        | simpl; first [ assumption | discriminate | intuition congruence ] ].



Lemma oracle_kept {A} (t : Task A) i w :
  Built (steady (oracle w)) responsive t ->
  oracle (snd (run t i w)) = oracle w.
Proof.
  intros H. exact (built_inv H (i:=i) (w:=w) eq_refl).
Qed.

Lemma branch_kept {A} (t : Task A) i w :
  Built (onBranch (branch w)) unasked t ->
  branch (snd (run t i w)) = branch w.
Proof.
  intros H. exact (built_inv H (i:=i) (w:=w) eq_refl).
Qed.

(** ** Branch names *)



(** ** The services, call by call *)

Lemma checkout_run b i w :
  run (GitService.checkout b) i w
  = let w1 := snd (Sys.exec GitClean None w) in
    (if (code (Sys.outcomeOf (GitCheckout b) w1) =? 0)%Z
     then Resolved tt
     else Rejected (ExecError (render (GitCheckout b))
                              (Sys.outcomeOf (GitCheckout b) w1)),
     i, snd (Sys.exec (GitCheckout b) None w1)).
Proof.
  unfold GitService.checkout.
  rewrite run_bind, run_tryCatch, run_bind, run_execAsync.
  destruct (code (Sys.outcomeOf GitClean w) =? 0)%Z; cbv beta iota;
    rewrite !run_ret; cbv beta iota;
    rewrite run_bind, run_execAsync; cbv zeta;
    destruct (code (Sys.outcomeOf (GitCheckout b) _) =? 0)%Z; reflexivity.
Qed.

Lemma stop_not_rejected i w e i' w' :
  run ServerService.stop i w <> (Rejected e, i', w').
Proof.
  destruct i as [[[[n|]]|] d]; cbn.
  - destruct (n =? 0)%N; cbn.
    + destruct (exits _ _); cbn; discriminate.
    + destruct (groupKill _ _); cbn; destruct (exits _ _); cbn; discriminate.
  - destruct (exits _ _); cbn; discriminate.
  - discriminate.
Qed.

Lemma stop_steady o : Built (steady o) responsive ServerService.stop.
Proof. unfold steady, responsive. built; leaf. Qed.

Lemma killPort_run port i w :
  run (ServerService.killPort port) i w
  = (Resolved tt, i, Sys.record (EvKillPort port) w).
Proof. reflexivity. Qed.

(** ** The branch at the end of a run *)















Lemma sequence_steady o config urls main b port t :
  Built (steady o) responsive (TestRunner.sequence config urls main b port t).
Proof. unfold steady, responsive. built; leaf. Qed.



Lemma validateSetup_steady o root path :
  Built (steady o) responsive (TestRunner.validateSetup root path).
Proof. unfold steady, responsive. built; leaf. Qed.


Lemma cleanup_onBranch b : Built (onBranch b) unasked TestRunner.cleanup.
Proof. unfold onBranch, unasked. built; leaf. Qed.


Lemma afterwards_world {A} (o : Outcome A) (r : Outcome unit * Inst * World) :
  snd (afterwards o r) = snd r.
Proof. destruct r as [[[] ?] ?]; reflexivity. Qed.

Lemma cleanup_branch {A} (o : Outcome A) i w :
  branch (snd (afterwards o (run TestRunner.cleanup i w))) = branch w.
Proof.
  rewrite afterwards_world.
  apply (branch_kept i w (cleanup_onBranch (branch w))).
Qed.



Lemma clearSnapshots_steady o :
  Built (steady o) responsive GitService.clearSnapshots.
Proof. unfold steady, responsive. built; leaf. Qed.





(** A checkout that exits with zero need not make its argument the active
    branch.  The branch [#123-fix] reaches the shell as a comment: the
    run records it, switches to [main], later runs [git checkout -f] with
    nothing after it, which succeeds and stays on [main], and resolves
    there. *)
Lemma runTest_loses_rewritten_name :
  validBranch "#123-fix" = true
  /\ fst (fst (run (TestRunner.runTest defaults "/ws" ["/"]) fresh onHashBranch))
     = Resolved tt
  /\ branch (snd (run (TestRunner.runTest defaults "/ws" ["/"]) fresh onHashBranch))
     = "main".
Proof. vm_compute. repeat split; reflexivity. Qed.

(** The first hypothesis of the theorem is needed as well: started on a
    detached HEAD, where [git branch --show-current] prints nothing, a run
    on which no command fails ends on [main]. *)
Lemma runTest_from_detached_head :
  fst (fst (run (TestRunner.runTest defaults "/ws" ["/"]) fresh detached))
  = Resolved tt
  /\ branch (snd (run (TestRunner.runTest defaults "/ws" ["/"]) fresh detached))
     = "main".
Proof. vm_compute. split; reflexivity. Qed.

(** ** Validation *)

Lemma since_app (w0 w : World) (evs : list Event) :
  trace w = (trace w0 ++ evs)%list -> since w0 w = evs.
Proof.
  intros H. unfold since. rewrite H.
  rewrite skipn_app, skipn_all, Nat.sub_diag. reflexivity.
Qed.

Lemma journal_start ok i w : journal ok i w i w.
Proof.
  unfold journal. repeat split. exists []. rewrite app_nil_r. auto.
Qed.

Lemma journal_same ok i0 w0 i w w' :
  trace w' = trace w -> branch w' = branch w ->
  journal ok i0 w0 i w -> journal ok i0 w0 i w'.
Proof.
  intros T B (Hi & Hb & evs & Ht & Hok). unfold journal.
  rewrite T, B. eauto.
Qed.

Lemma journal_event ok i0 w0 i w w' e :
  trace w' = (trace w ++ [e])%list -> ok e = true -> branch w' = branch w ->
  journal ok i0 w0 i w -> journal ok i0 w0 i w'.
Proof.
  intros T E B (Hi & Hb & evs & Ht & Hok). unfold journal.
  rewrite T, B, Ht. repeat split; auto.
  exists (evs ++ [e])%list. rewrite app_assoc. split; [reflexivity|].
  rewrite forallb_app, Hok. simpl. rewrite E. reflexivity.
Qed.

(** Settles the obligation of one host call under a journal. *)
Ltac journal_leaf :=
  intros;
  first
    [ eapply journal_same; [| |eassumption]; reflexivity
    | eapply journal_event; [| | |eassumption];
      [ first [apply exec_trace | reflexivity]
      | reflexivity
      | first [apply exec_branch; intros ?; discriminate | reflexivity] ]
    | match goal with H : unasked _ |- _ => destruct H end ].

Lemma quiet_weaken (evs : list Event) :
  forallb quiet evs = true -> forallb quietOrProbe evs = true.
Proof.
  intros H. rewrite forallb_forall in *. intros e He.
  unfold quietOrProbe. rewrite (H e He). reflexivity.
Qed.

Lemma journal_quiet i0 w0 i w :
  journal quiet i0 w0 i w ->
  i = i0 /\ branch w = branch w0
  /\ forallb quietOrProbe (since w0 w) = true
  /\ forallb quiet (since w0 w) = true.
Proof.
  intros (Hi & Hb & evs & Ht & Hok).
  rewrite (@since_app w0 w evs Ht). auto using quiet_weaken.
Qed.

(** Runs the next step of a task under a journal: the step keeps the
    journal, and a rejection inside it is the end of the run. *)
Ltac journal_step H J i0 w0 :=
  rewrite run_bind in H;
  lazymatch type of H with
  | match run ?t ?i ?w with _ => _ end = _ =>
      let B := fresh "B" in
      assert (B : Built (journal quiet i0 w0) unasked t)
        by (built; journal_leaf);
      let J' := fresh "J" in
      pose proof (built_inv B J) as J';
      destruct (run t i w) as [[[?|?|] ?] ?];
      simpl in J'; cbv beta iota in H;
      [ clear B
      | injection H as <- <- <-; apply journal_quiet in J';
        intuition auto
      | discriminate H ]
  end.

(** C6, as amended.  When [validateSetup] throws, [runTest] throws the
    same error without having gone further.  The objects of the
    invocation and the active branch are untouched, no process has been
    started or killed, and the only git command that can have run is the
    read-only probe [git rev-parse --git-dir]: it has run when the error is
    that the workspace is not a repository, and no git command at all has
    run when the error is another one (missing tooling, or a declined
    offer to scaffold the missing test file). *)
Theorem validation_failure_aborts (config : Settings) (workspaceRoot : string)
  (urlPaths : list string) (i : Inst) (w : World)
  (e : JsError) (i' : Inst) (w' : World) :
  run (TestRunner.validateSetup workspaceRoot
         (get (testPath config) "tests/visual")) i w
  = (Rejected e, i', w') ->
  run (TestRunner.runTest config workspaceRoot urlPaths) i w
  = (Rejected e, i', w')
  /\ i' = i /\ branch w' = branch w
  /\ forallb quietOrProbe (since w w') = true
  /\ (e <> notARepository -> forallb quiet (since w w') = true).
Proof.
  intros H. split.
  { unfold TestRunner.runTest. cbv zeta.
    rewrite run_bind, run_tryCatch, H. reflexivity. }
  pose proof (journal_start quiet i w) as J.
  unfold TestRunner.validateSetup in H. cbv zeta in H.
  journal_step H J i w.
  journal_step H J0 i w.
  journal_step H J1 i w.
  journal_step H J2 i w.
  rewrite run_tryCatch, run_bind, run_execAsync in H.
  destruct (code (Sys.outcomeOf GitRevParse w3) =? 0)%Z;
    cbv beta iota in H; [discriminate H|].
  rewrite run_throw in H.
  remember (snd (Sys.exec GitRevParse None w3)) as w4 eqn:W4.
  injection H as <- <- <-.
  destruct J3 as (Hi & Hb & evs & Ht & Hok).
  assert (T : trace w4
              = (trace w ++ (evs ++ [EvExec GitRevParse (processEnv w3)]))%list).
  { rewrite W4, exec_trace, Ht, app_assoc. reflexivity. }
  rewrite (@since_app _ _ _ T).
  split; [exact Hi|]. split.
  { rewrite W4, exec_branch by (intros ?; discriminate). exact Hb. }
  split.
  - rewrite forallb_app, (quiet_weaken _ Hok). reflexivity.
  - intros N. exfalso. apply N. reflexivity.
Qed.

Lemma validation_failure_aborts_witness :
  run (TestRunner.runTest defaults "/ws" ["/"]) fresh untested
  = (Rejected noTestFiles, fresh,
     snd (run (TestRunner.validateSetup "/ws" "tests/visual") fresh untested))
  /\ forallb quiet
       (since untested
          (snd (run (TestRunner.validateSetup "/ws" "tests/visual")
                    fresh untested))) = true.
Proof.
  destruct (@validation_failure_aborts defaults "/ws" ["/"] fresh untested
              noTestFiles fresh
              (snd (run (TestRunner.validateSetup "/ws" "tests/visual")
                        fresh untested)))
    as (R & _ & _ & _ & Q).
  - vm_compute. reflexivity.
  - split; [exact R|]. apply Q. discriminate.
Defined.

(** C6, as stated, fails.  In a workspace that is not a git repository,
    validation throws only after the git command [git rev-parse --git-dir]
    has run. *)
Lemma validation_runs_git_probe :
  ~ validationFailureIsClean defaults "/ws" ["/"] fresh (hostWith unversioned).
Proof.
  intros H.
  destruct (H notARepository fresh
              (snd (run (TestRunner.validateSetup "/ws" "tests/visual")
                        fresh (hostWith unversioned))))
    as (_ & _ & _ & Q).
  - vm_compute. reflexivity.
  - vm_compute in Q. discriminate Q.
Qed.

(** ** The staging directory *)

Lemma stagingDirs_app (evs evs' : list Event) :
  stagingDirs (evs ++ evs') = (stagingDirs evs ++ stagingDirs evs')%list.
Proof. unfold stagingDirs. apply flat_map_app. Qed.

Lemma ledger_same w0 P i w w' :
  oracle w' = oracle w -> trace w' = trace w ->
  ledger w0 P i w -> ledger w0 P i w'.
Proof.
  intros O T (Ho & evs & Ht & Hp). unfold ledger.
  rewrite O, T. eauto.
Qed.

Lemma ledger_event w0 P i w w' e :
  oracle w' = oracle w -> trace w' = (trace w ++ [e])%list ->
  stagingDirs [e] = [] ->
  ledger w0 P i w -> ledger w0 P i w'.
Proof.
  intros O T S (Ho & evs & Ht & Hp). unfold ledger.
  rewrite O, T, Ht. split; [exact Ho|].
  exists (evs ++ [e])%list. rewrite app_assoc. split; [reflexivity|].
  rewrite stagingDirs_app, S, app_nil_r. exact Hp.
Qed.

Lemma ledger_local w0 P i i' w :
  tmpDir i' = tmpDir i -> ledger w0 P i w -> ledger w0 P i' w.
Proof.
  intros D (Ho & evs & Ht & Hp). unfold ledger. rewrite D. eauto.
Qed.

Lemma ledger_weaken w0 (P Q : string -> list string -> Prop) i w :
  (forall d dirs, P d dirs -> Q d dirs) ->
  ledger w0 P i w -> ledger w0 Q i w.
Proof.
  intros I (Ho & evs & Ht & Hp). unfold ledger. eauto 6.
Qed.

(** Settles the obligation of one host call under a ledger. *)
Ltac ledger_leaf :=
  intros;
  first
    [ eapply ledger_local; [|eassumption]; reflexivity
    | eapply ledger_same; [| |eassumption];
      [ first [apply exec_oracle | reflexivity] | reflexivity ]
    | eapply ledger_event; [| | |eassumption];
      [ first [apply exec_oracle | reflexivity]
      | first [apply exec_trace | reflexivity]
      | reflexivity ]
    | match goal with H : unasked _ |- _ => destruct H end ].

Lemma recover_tracked w0 b port e :
  Built (tracked w0) unasked (TestRunner.recover b port e).
Proof. unfold tracked. built; ledger_leaf. Qed.

Lemma saveSnapshotsToTemp_run i w :
  exists d w',
    run GitService.saveSnapshotsToTemp i w = (Resolved d, i, w')
    /\ Js.isEmpty d = false
    /\ oracle w' = oracle w
    /\ trace w' = (trace w ++ [EvNow; EvExec (CopyToTemp d) (processEnv w)])%list.
Proof.
  unfold GitService.saveSnapshotsToTemp.
  set (t := now (oracle w) (Sys.step w)).
  set (d := "/tmp/visual-regression-baseline-" ++ Js.ofN t).
  set (w1 := Sys.record EvNow w).
  exists d, (snd (Sys.exec (CopyToTemp d) None w1)).
  split; [|split; [reflexivity|split]].
  - change (run (bind (host Sys.dateNow) ?g) i w)
      with (run (g t) i w1).
    cbv beta zeta. fold d.
    rewrite run_tryCatch, run_bind, run_execAsync.
    destruct (code (Sys.outcomeOf (CopyToTemp d) w1) =? 0)%Z; reflexivity.
  - rewrite exec_oracle. reflexivity.
  - rewrite exec_trace. unfold w1. simpl. rewrite <- app_assoc. reflexivity.
Qed.

(** Runs the next step of a task under the invariant at hand; the goal
    is a property of the final state that the invariant entails. *)
Ltac ledger_step leaf weaken :=
  rewrite run_bind;
  lazymatch goal with
  | |- context [match run ?t ?i ?w with _ => _ end] =>
      match goal with
      | J : ?Inv i w |- _ =>
          let B := fresh "B" in
          assert (B : Built Inv unasked t) by (built; leaf);
          let J' := fresh "J" in
          pose proof (built_inv B J) as J'; clear J;
          destruct (run t i w) as [[[?|?|] ?] ?];
          simpl in J'; cbv beta iota;
          [ clear B | weaken J' | weaken J' ]
      end
  end.

Lemma unstaged_tracked w0 i w : unstaged w0 i w -> tracked w0 i w.
Proof. apply ledger_weaken. intros d dirs H. left. exact H. Qed.

Lemma stagedAt_tracked w0 d0 i w : stagedAt w0 d0 i w -> tracked w0 i w.
Proof.
  apply ledger_weaken. intros d dirs (D & E & S). subst d. right. auto.
Qed.

(** Whatever becomes of the [try] block of [runTest], either no staging
    directory has been asked for and [tmpDir] is empty, or exactly one has
    and [tmpDir] names it. *)
Lemma sequence_tracked w0 config urls main b port t i w :
  unstaged w0 i w ->
  trackedAfter w0 (run (TestRunner.sequence config urls main b port t) i w).
Proof.
  intros J. unfold TestRunner.sequence.
  do 4 ledger_step ltac:(unfold unstaged; ledger_leaf)
                   ltac:(fun H => exact (unstaged_tracked H)).
  rewrite run_bind.
  lazymatch goal with
  | J : unstaged _ ?i ?w |- _ =>
      destruct (saveSnapshotsToTemp_run i w) as (d & wS & R & E & O & T);
      rewrite R; cbv beta iota;
      rewrite run_bind; simpl (run (local _) _ _); cbv beta iota;
      assert (S : stagedAt w0 d (mkInst (serverProcess i) d) wS);
      [ destruct J as (Ho & evs & Ht & Hd & Hs); unfold stagedAt, ledger;
        split; [congruence|];
        exists (evs ++ [EvNow; EvExec (CopyToTemp d) (processEnv w)])%list;
        split; [rewrite T, Ht, app_assoc; reflexivity|];
        rewrite stagingDirs_app, Hs; simpl; auto
      | ]
  end.
  lazymatch goal with
  | |- trackedAfter _ (run ?rest _ _) =>
      assert (B : Built (stagedAt w0 d) unasked rest)
        by (unfold stagedAt; built; ledger_leaf)
  end.
  exact (stagedAt_tracked (built_inv B S)).
Qed.

Lemma uncopied_cleared w0 i w : uncopied w0 i w -> cleared w0 w.
Proof.
  intros (_ & evs & Ht & Hs) d. rewrite (@since_app w0 w evs Ht), Hs.
  intros [].
Qed.

Lemma exec_rm_fs d env w :
  code (Sys.outcomeOf (RmRf d) w) = 0%Z ->
  fs (snd (Sys.exec (RmRf d) env w)) d = None.
Proof.
  intros C. unfold Sys.exec. rewrite C. simpl.
  unfold Sys.remove. rewrite String.eqb_refl. reflexivity.
Qed.

Lemma cleanup_run_unstaged i w :
  tmpDir i = "" -> run TestRunner.cleanup i w = (Resolved tt, i, w).
Proof.
  intros D. unfold TestRunner.cleanup.
  rewrite run_bind. simpl (run (local _) _ _). cbv beta iota.
  rewrite D. reflexivity.
Qed.

Lemma cleanup_run_staged i w :
  Js.isEmpty (tmpDir i) = false ->
  code (Sys.outcomeOf (RmRf (tmpDir i)) w) = 0%Z ->
  run TestRunner.cleanup i w
  = (Resolved tt, i, snd (Sys.exec (RmRf (tmpDir i)) None w)).
Proof.
  destruct i as [p d]. simpl tmpDir. intros E C. unfold TestRunner.cleanup.
  rewrite run_bind. simpl (run (local _) _ _). cbv beta iota.
  rewrite E. simpl when. unfold GitService.cleanupTemp.
  rewrite run_tryCatch, run_bind, run_execAsync, C. reflexivity.
Qed.

(** The [finally] block of [runTest] removes the staging directory that
    [tmpDir] names, when removing works. *)
Lemma cleanup_clears w0 i w :
  tracked w0 i w -> removeWorks w0 ->
  cleared w0 (snd (run TestRunner.cleanup i w)).
Proof.
  intros (Ho & evs & Ht & [[D S]|[E S]]) R d.
  - rewrite (cleanup_run_unstaged i w D). cbn [snd].
    rewrite (@since_app w0 w evs Ht), S. intros [].
  - assert (C : code (Sys.outcomeOf (RmRf (tmpDir i)) w) = 0%Z).
    { unfold Sys.outcomeOf. rewrite Ho. apply R. }
    rewrite (cleanup_run_staged i w E C). cbn [snd].
    assert (T : trace (snd (Sys.exec (RmRf (tmpDir i)) None w))
                = (trace w0 ++ (evs ++ [EvExec (RmRf (tmpDir i)) (processEnv w)]))%list).
    { rewrite exec_trace, Ht, app_assoc. reflexivity. }
    rewrite (@since_app _ _ _ T), stagingDirs_app, S.
    intros [<-|[]]. apply exec_rm_fs. exact C.
Qed.

(** C7, as amended.  On a host where removing a directory does not fail,
    no staging directory created during a run of [runTest] is left when
    the run has settled, whether it resolved, with or without differences
    reported, or rejected.  The removal runs in the final block of the run
    whenever the staging directory has been named. *)
Theorem runTest_removes_staging (config : Settings) (workspaceRoot : string)
  (urlPaths : list string) (i : Inst) (w : World) :
  removeWorks w ->
  stagingRemoved config workspaceRoot urlPaths i w.
Proof.
  intros R. unfold stagingRemoved, TestRunner.runTest. cbv zeta.
  assert (J : uncopied w i w).
  { split; [reflexivity|]. exists []. rewrite app_nil_r. auto. }
  do 3 ledger_step
    ltac:(unfold uncopied; ledger_leaf)
    ltac:(fun H => first [ discriminate
                         | intros _; exact (uncopied_cleared H) ]).
  rewrite run_bind. simpl (run (local _) _ _). cbv beta iota.
  rewrite run_tryFinally, run_tryCatch.
  lazymatch goal with
  | J : uncopied ?base ?j ?v |- context [run (TestRunner.sequence ?c ?u ?m ?b ?p ?t) ?j' _] =>
      assert (U : unstaged base j' v)
        by (destruct J as (Ho & evs & Ht & Hs); split; [exact Ho|];
            exists evs; auto);
      pose proof (@sequence_tracked base c u m b p t j' v U) as TS;
      unfold trackedAfter in TS;
      destruct (run (TestRunner.sequence c u m b p t) j' v)
        as [[[[]|e|] i5] w5]; simpl in TS; cbv beta iota
  end.
  - rewrite afterwards_world. intros _. apply cleanup_clears; assumption.
  - lazymatch goal with
    | |- context [run (TestRunner.recover ?b ?p e) i5 w5] =>
        pose proof (built_inv (recover_tracked w b p e) TS) as TR;
        destruct (run (TestRunner.recover b p e) i5 w5) as [[o6 i6] w6]
    end.
    simpl in TR.
    destruct o6; cbv beta iota; try discriminate;
      rewrite afterwards_world; intros _; apply cleanup_clears; assumption.
  - discriminate.
Qed.

Lemma runTest_removes_staging_witness :
  stagingDirs
    (since (hostWith calm)
       (snd (run (TestRunner.runTest defaults "/ws" ["/"; "/dashboard"])
                 fresh (hostWith calm))))
  = ["/tmp/visual-regression-baseline-1700000000000"]
  /\ stagingRemoved defaults "/ws" ["/"; "/dashboard"] fresh (hostWith calm).
Proof.
  split.
  - vm_compute. reflexivity.
  - apply (@runTest_removes_staging defaults "/ws" ["/"; "/dashboard"] fresh
             (hostWith calm)).
    intros n d. reflexivity.
Defined.

(** C7, as stated, fails.  On a host where [rm -rf] fails, the run
    resolves, the failure of the removal is swallowed by [cleanupTemp],
    and the staging directory is still there. *)
Lemma runTest_leaves_staging :
  ~ stagingRemoved defaults "/ws" ["/"] fresh (hostWith clinging).
Proof.
  unfold stagingRemoved, cleared. intros H.
  specialize (H eq_refl "/tmp/visual-regression-baseline-1700000000000").
  vm_compute in H.
  specialize (H (or_introl eq_refl)). discriminate H.
Qed.

(** ** The controller *)


(** The guard of [runWorkflow]: while the flag is set, an invocation only
    shows a warning. *)
Lemma runWorkflow_guard config mode page i w :
  isRunning w = true ->
  run (VisualRegressionController.runWorkflow config mode page) i w
  = (Resolved tt, i,
     Sys.record (EvNotify "Visual regression tests are already running") w).
Proof.
  intros H. unfold VisualRegressionController.runWorkflow.
  rewrite run_bind. simpl (run (host _) _ _). cbv beta iota. rewrite H.
  reflexivity.
Qed.



(** ** Concurrent invocations *)

(** Taking turns does not change what a task does: running the
    synchronous part first, or letting the host complete the awaited
    operation first, leads to the same end as [run]. *)
Lemma advance_run {A} (t : Task A) i w :
  run t i w
  = run (fst (fst (Scheduler.advance t i w)))
        (snd (fst (Scheduler.advance t i w)))
        (snd (Scheduler.advance t i w)).
Proof.
  revert i w.
  induction t as [a|e|X f k IH|X f k IH|X f k IH]; intros i w; simpl; auto.
  - destruct (f i) as [x i']. apply IH.
  - destruct (f w) as [x w']. apply IH.
Qed.

Lemma resume_run {A X} (f : World -> option X * World) (k : X -> Task A) i w :
  fst (f w) <> None ->
  run (Await f k) i w
  = run (fst (fst (Scheduler.resume (Await f k) i w)))
        (snd (fst (Scheduler.resume (Await f k) i w)))
        (snd (Scheduler.resume (Await f k) i w)).
Proof.
  intros H. simpl. destruct (f w) as [[x|] w']; simpl in H; [|congruence].
  apply advance_run.
Qed.

(** The controller's flag does what it is there for: of two overlapping
    invocations of [visualRegression.runWorkflow], the second only shows
    the warning, and the first runs its workflow alone. *)
Lemma concurrent_runWorkflow_rejected :
  let '(history, pool, w') :=
    Scheduler.play twoWorkflows [] (hostWith calm) in
  nth_error history 1
  = Some (1, [EvNotify "Visual regression tests are already running"])
  /\ map fst history = [0; 1; 0; 0; 0]
  /\ map Scheduler.finished pool = [true; true]
  /\ isRunning w' = false.
Proof. vm_compute. repeat split; reflexivity. Qed.

(** C9 fails on the code: [runTest] has no such guard.  Two overlapping
    invocations of [visualRegression.runTest] both run the whole workflow.
    The second records [main], which the first has checked out, as its
    original branch; their branch switches interleave; both invocations
    finish without an error, and the user, who started on [feature], is
    left on [main]. *)
Theorem concurrent_runTest_interleaves :
  let '(history, pool, w') := Scheduler.play twoRuns [] (hostWith typing) in
  branch (hostWith typing) = "feature"
  /\ map fst pool = [Ret tt; Ret tt]
  /\ Scheduler.checkouts history
     = [(0, "main"); (1, "main"); (0, "feature"); (1, "main")]
  /\ branch w' = "main".
Proof. vm_compute. repeat split; reflexivity. Qed.

(** * Further properties of the services *)

(** ** Escaping a pattern *)

Lemma unescape_plain c r :
  PlaywrightService.isRegexSpecial c = false ->
  unescape (String c r) = String c (unescape r)
  /\ escaped (String c r) = escaped r.
Proof.
  intros H.
  destruct c as [[] [] [] [] [] [] [] []]; try discriminate H;
    simpl; rewrite ?H; split; reflexivity.
Qed.

(** X1. [escapeRegex] puts a backslash before each of the characters
    [.*+?^${}()|[]\] and changes nothing else: the result consists only of
    escaped characters and characters that are not special, reading it
    back gives the original string, and it is longer than the original by
    the number of special characters. *)
Theorem escapeRegex_round_trip (str : string) :
  unescape (PlaywrightService.escapeRegex str) = str
  /\ escaped (PlaywrightService.escapeRegex str) = true
  /\ String.length (PlaywrightService.escapeRegex str)
     = String.length str
       + List.length (filter PlaywrightService.isRegexSpecial
                             (list_ascii_of_string str)).
Proof.
  induction str as [|c r (U & E & L)]; [repeat split|].
  simpl. destruct (PlaywrightService.isRegexSpecial c) eqn:S.
  - simpl. rewrite U, E, L. repeat split. simpl. lia.
  - destruct (unescape_plain c (PlaywrightService.escapeRegex r) S) as [U' E'].
    rewrite U', E', U, E. repeat split. simpl. rewrite L. reflexivity.
Qed.

(** ** The environment of child processes *)

Lemma getVar_assign k k' v base :
  getVar k (assign base k' v)
  = if String.eqb k' k then Some v else getVar k base.
Proof.
  induction base as [|[k0 v0] rest IH]; simpl.
  - reflexivity.
  - destruct (String.eqb k0 k') eqn:E0; simpl.
    + apply String.eqb_eq in E0. subst k0.
      destruct (String.eqb k' k); reflexivity.
    + destruct (String.eqb k0 k) eqn:E1; [|exact IH].
      apply String.eqb_eq in E1. subst k0.
      rewrite String.eqb_sym, E0. reflexivity.
Qed.

Lemma getVar_app k env env' :
  getVar k (env ++ env')%list
  = match getVar k env with Some v => Some v | None => getVar k env' end.
Proof.
  induction env as [|[k0 v0] rest IH]; simpl; [reflexivity|].
  destruct (String.eqb k0 k); [reflexivity|exact IH].
Qed.

Lemma assign_keys k v base :
  NoDup (map fst base) ->
  NoDup (map fst (assign base k v))
  /\ forall k', In k' (map fst (assign base k v)) <-> k' = k \/ In k' (map fst base).
Proof.
  induction base as [|[k0 v0] rest IH]; simpl; intros N.
  - split; [constructor; [intros []|constructor]|]. intros k'. intuition.
  - inversion N as [|? ? N0 N1]; subst.
    destruct (String.eqb k0 k) eqn:E; simpl.
    + apply String.eqb_eq in E. subst k0. split; [exact N|].
      intros k'. intuition.
    + destruct (IH N1) as [D I]. split.
      * constructor; [|exact D]. intros C. apply I in C.
        destruct C as [C|C]; [|exact (N0 C)].
        subst k0. rewrite String.eqb_refl in E. discriminate E.
      * intros k'. rewrite I. intuition.
Qed.

Lemma spread_getVar (base extra : EnvVars) (k : string) :
  getVar k (spread base extra) = merged k base extra
  /\ (NoDup (map fst base) -> NoDup (map fst (spread base extra))).
Proof.
  unfold spread, merged. revert base.
  induction extra as [|[k0 v0] rest IH]; intros base; simpl.
  - split; [reflexivity|auto].
  - destruct (IH (assign base k0 v0)) as [G N]. split.
    + rewrite G, getVar_app, getVar_assign. simpl.
      destruct (getVar k (rev rest)); [reflexivity|].
      destruct (String.eqb k0 k); reflexivity.
    + intros D. apply N. apply assign_keys. exact D.
Qed.

(** X2. Object spread as the services use it for the environment of a
    child process: in [{...base, ...extra}] a variable has the value of
    its last entry in [extra] and otherwise the value it has in [base], and
    when no name occurs twice in [base] none occurs twice in the result. *)
Theorem spread_lookup (base extra : EnvVars) (k : string) :
  NoDup (map fst base) ->
  getVar k (spread base extra) = merged k base extra
  /\ NoDup (map fst (spread base extra)).
Proof.
  intros D. destruct (spread_getVar base extra k) as [G N]. auto.
Qed.

Lemma spread_lookup_witness :
  getVar "TEST_URL"
    (spread [("PATH", "/usr/bin"); ("TEST_URL", "http://localhost:3000/")]
            [("TEST_URL", "http://staging/")])
  = Some "http://staging/"
  /\ NoDup (map fst
       (spread [("PATH", "/usr/bin"); ("TEST_URL", "http://localhost:3000/")]
               [("TEST_URL", "http://staging/")])).
Proof.
  apply (spread_lookup
           [("PATH", "/usr/bin"); ("TEST_URL", "http://localhost:3000/")]
           [("TEST_URL", "http://staging/")] "TEST_URL").
  repeat constructor; simpl; intuition discriminate.
Defined.

(** X3. The runner is started once by [updateSnapshots] and once by
    [runTests], with the same environment: every custom variable of the
    settings, [TEST_URL] set to the URL of the page unless the settings
    define [TEST_URL] themselves, and the other variables of the
    extension host. *)
Theorem runner_environment (config : Settings) (urlPath : string) (port : N)
  (i : Inst) (w : World) :
  let path := get (testPath config) "tests/visual/pages.spec.ts" in
  let custom := get (environmentVariables config) [] in
  let url := PlaywrightService.localUrl port urlPath in
  exists env,
    since w (snd (run (PlaywrightService.updateSnapshots config urlPath port) i w))
    = [EvExec (PwUpdate path) env]
    /\ since w (snd (run (PlaywrightService.runTests config urlPath port) i w))
       = [EvExec (PwTest path) env]
    /\ forall k,
         getVar k env
         = match getVar k (rev custom) with
           | Some v => Some v
           | None => if String.eqb "TEST_URL" k then Some url
                     else getVar k (processEnv w)
           end.
Proof.
  intros path custom url.
  exists (spread (assign (processEnv w) "TEST_URL" url) custom).
  split; [|split].
  - unfold PlaywrightService.updateSnapshots. fold path custom url.
    rewrite run_bind. simpl (run (host _) _ _). cbv beta iota.
    rewrite run_tryCatch, run_bind, run_execAsync.
    apply since_app.
    destruct (code _ =? 0)%Z; cbv beta iota; rewrite ?run_ret, ?run_throw;
      cbn [snd]; rewrite exec_trace; reflexivity.
  - unfold PlaywrightService.runTests. fold path custom url.
    rewrite run_bind. simpl (run (host _) _ _). cbv beta iota.
    rewrite run_tryCatch, run_bind, run_execAsync.
    apply since_app.
    destruct (code _ =? 0)%Z; cbv beta iota; rewrite ?run_ret, ?run_throw;
      cbn [snd]; rewrite exec_trace; reflexivity.
  - intros k.
    destruct (spread_getVar (assign (processEnv w) "TEST_URL" url) custom k)
      as [G _].
    rewrite G. unfold merged. rewrite getVar_assign. reflexivity.
Qed.

(** ** Parsing the URL input *)

Lemma allChars_impl (p q : ascii -> bool) (s : string) :
  (forall c, p c = true -> q c = true) ->
  allChars p s = true -> allChars q s = true.
Proof.
  intros I. induction s as [|c r IH]; simpl; [reflexivity|].
  intros H. apply andb_true_iff in H. destruct H as [H1 H2].
  rewrite (I c H1), (IH H2). reflexivity.
Qed.

Lemma trimStart_shape (s : string) :
  Js.trimStart s = EmptyString
  \/ exists c r, Js.trimStart s = String c r /\ Js.isSpace c = false.
Proof.
  induction s as [|c r IH]; simpl; [left; reflexivity|].
  destruct (Js.isSpace c) eqn:E; [exact IH|].
  right. exists c, r. split; [reflexivity|exact E].
Qed.

Lemma trimEnd_idem (s : string) : Js.trimEnd (Js.trimEnd s) = Js.trimEnd s.
Proof.
  induction s as [|c r IH]; simpl; [reflexivity|].
  destruct (Js.trimEnd r) as [|c' r'] eqn:E.
  - destruct (Js.isSpace c) eqn:S; simpl; [reflexivity|].
    rewrite S. reflexivity.
  - simpl. simpl in IH. rewrite IH. reflexivity.
Qed.

Lemma trimEnd_keeps_head (c : ascii) (r : string) :
  Js.isSpace c = false -> exists r', Js.trimEnd (String c r) = String c r'.
Proof.
  intros S. simpl. destruct (Js.trimEnd r); [rewrite S|]; eauto.
Qed.

Lemma trim_idem (s : string) : Js.trim (Js.trim s) = Js.trim s.
Proof.
  unfold Js.trim.
  destruct (trimStart_shape s) as [E|(c & r & E & S)]; rewrite E.
  - reflexivity.
  - destruct (trimEnd_keeps_head c r S) as [r' T].
    rewrite T. simpl Js.trimStart. rewrite S, <- T. apply trimEnd_idem.
Qed.

Lemma trimStart_chars (p : ascii -> bool) (s : string) :
  allChars p s = true -> allChars p (Js.trimStart s) = true.
Proof.
  induction s as [|c r IH]; simpl; [reflexivity|].
  intros H. destruct (Js.isSpace c); [|exact H].
  apply andb_true_iff in H. apply IH. apply H.
Qed.

Lemma trimEnd_chars (p : ascii -> bool) (s : string) :
  allChars p s = true -> allChars p (Js.trimEnd s) = true.
Proof.
  induction s as [|c r IH]; simpl; [reflexivity|].
  intros H. apply andb_true_iff in H. destruct H as [H1 H2].
  specialize (IH H2).
  destruct (Js.trimEnd r).
  - destruct (Js.isSpace c); simpl; [reflexivity|]. rewrite H1. reflexivity.
  - simpl. simpl in IH. rewrite H1, IH. reflexivity.
Qed.

Lemma trimEnd_spaceless (s : string) :
  allChars (fun c => negb (Js.isSpace c)) s = true -> Js.trimEnd s = s.
Proof.
  induction s as [|c r IH]; simpl; [reflexivity|].
  intros H. apply andb_true_iff in H. destruct H as [H1 H2].
  rewrite (IH H2). apply negb_true_iff in H1.
  destruct r; [rewrite H1|]; reflexivity.
Qed.

Lemma split_pieces (s : string) :
  Extension.split s <> []
  /\ Forall (fun piece => allChars (fun c => negb (isSeparator c)) piece = true)
            (Extension.split s).
Proof.
  induction s as [|c r [N F]]; simpl.
  - split; [discriminate|]. repeat constructor.
  - fold (isSeparator c). destruct (isSeparator c) eqn:S.
    + split; [discriminate|]. constructor; [reflexivity|exact F].
    + destruct (Extension.split r) as [|piece pieces]; [congruence|].
      split; [discriminate|].
      inversion F; subst. constructor; [|assumption].
      simpl. rewrite S. assumption.
Qed.

Lemma split_at_comma (p r : string) :
  allChars (fun c => negb (isSeparator c)) p = true ->
  Extension.split (p ++ String "," r) = p :: Extension.split r.
Proof.
  induction p as [|c q IH]; simpl; [reflexivity|].
  intros H. apply andb_true_iff in H. destruct H as [H1 H2].
  fold (isSeparator c). apply negb_true_iff in H1. rewrite H1.
  rewrite (IH H2). reflexivity.
Qed.

Lemma split_whole (p : string) :
  allChars (fun c => negb (isSeparator c)) p = true ->
  Extension.split p = [p].
Proof.
  induction p as [|c q IH]; simpl; [reflexivity|].
  intros H. apply andb_true_iff in H. destruct H as [H1 H2].
  fold (isSeparator c). apply negb_true_iff in H1. rewrite H1.
  rewrite (IH H2). reflexivity.
Qed.

Lemma parse_after_space (s : string) :
  Extension.parseUrlPaths (String " " s) = Extension.parseUrlPaths s.
Proof.
  unfold Extension.parseUrlPaths. simpl.
  destruct (split_pieces s) as [N _].
  destruct (Extension.split s) as [|piece pieces]; [congruence|].
  reflexivity.
Qed.

Lemma cleanPath_facts (p : string) :
  cleanPath p = true ->
  Js.isEmpty p = false /\ Js.trim p = p
  /\ allChars (fun c => negb (isSeparator c)) p = true.
Proof.
  unfold cleanPath. intros H. apply andb_true_iff in H. destruct H as [E A].
  apply negb_true_iff in E.
  assert (S : allChars (fun c => negb (Js.isSpace c)) p = true).
  { revert A. apply allChars_impl. intros c H.
    apply andb_true_iff in H. apply H. }
  split; [exact E|]. split.
  - unfold Js.trim. destruct p as [|c r]; [reflexivity|].
    simpl in S. apply andb_true_iff in S. destruct S as [S1 S2].
    simpl Js.trimStart. apply negb_true_iff in S1. rewrite S1.
    apply trimEnd_spaceless. simpl. rewrite S1, S2. reflexivity.
  - revert A. apply allChars_impl. intros c H.
    apply andb_true_iff in H. destruct H as [H1 H2].
    unfold isSeparator. apply negb_true_iff. apply orb_false_iff.
    apply negb_true_iff in H2. split; [exact H2|].
    destruct (Ascii.eqb_spec c (ascii_of_nat 10)) as [->|]; [|reflexivity].
    discriminate H1.
Qed.

Lemma parse_at_comma (p r : string) :
  cleanPath p = true ->
  Extension.parseUrlPaths (p ++ String "," r) = p :: Extension.parseUrlPaths r.
Proof.
  intros C. destruct (cleanPath_facts p C) as (E & T & S).
  unfold Extension.parseUrlPaths. rewrite (split_at_comma _ _ S).
  simpl. rewrite T, E. reflexivity.
Qed.

(** X4. Whatever is typed into the input box, the URL paths that
    [visualRegression.runTest] derives from it are not empty, have no
    white space at either end, and hold neither a comma nor a line break. *)
Theorem parseUrlPaths_clean (urlInput : string) :
  Forall (fun url => Js.isEmpty url = false
                     /\ Js.trim url = url
                     /\ allChars (fun c => negb (isSeparator c)) url = true)
         (Extension.parseUrlPaths urlInput).
Proof.
  apply Forall_forall. intros url H.
  unfold Extension.parseUrlPaths in H. apply filter_In in H.
  destruct H as [H E]. apply negb_true_iff in E.
  apply in_map_iff in H. destruct H as (piece & <- & H).
  split; [exact E|]. split; [apply trim_idem|].
  destruct (split_pieces urlInput) as [_ F].
  rewrite Forall_forall in F. specialize (F piece H).
  unfold Js.trim. apply trimEnd_chars, trimStart_chars. exact F.
Qed.

(** X5. Entering paths the way the prompt asks for them gives them back:
    for paths that are not empty and hold no white space and no comma,
    the text that lists them separated by a comma and a space is parsed
    into exactly these paths, in order. *)
Theorem parseUrlPaths_round_trip (urlPaths : list string) :
  forallb cleanPath urlPaths = true ->
  Extension.parseUrlPaths (Js.join ", " urlPaths) = urlPaths.
Proof.
  induction urlPaths as [|p rest IH]; [reflexivity|].
  simpl forallb. intros H. apply andb_true_iff in H. destruct H as [C R].
  destruct (cleanPath_facts p C) as (E & T & S).
  specialize (IH R).
  unfold Js.join in *. simpl String.concat.
  destruct rest as [|q rest'].
  - unfold Extension.parseUrlPaths. rewrite (split_whole p S). simpl.
    rewrite T, E. reflexivity.
  - change (p ++ ", " ++ String.concat ", " (q :: rest'))
      with (p ++ String "," (String " " (String.concat ", " (q :: rest')))).
    rewrite (parse_at_comma _ _ C), parse_after_space, IH. reflexivity.
Qed.

Lemma parseUrlPaths_round_trip_witness :
  Extension.parseUrlPaths (Js.join ", " ["/"; "/dashboard"; "/a/b"])
  = ["/"; "/dashboard"; "/a/b"].
Proof.
  apply (parseUrlPaths_round_trip ["/"; "/dashboard"; "/a/b"]). reflexivity.
Defined.

(** ** Names of reference images that coincide *)

(** X6. The name of a reference image is stable and not unique.  Deriving
    a name from a derived name changes nothing, and for every URL path
    the path made of a slash and its derived name gets the same name: so
    "/a/b" and "/a-b", or "/" and "/homepage", share one reference image. *)
Theorem filename_collides (urlPath : string) :
  Template.filename (Template.filename urlPath) = Template.filename urlPath
  /\ Template.filename (String "/" (Template.filename urlPath))
     = Template.filename urlPath.
Proof.
  destruct (filename_named urlPath) as [N A].
  exact (name_is_fixed N A).
Qed.

(** ** The repository gateway *)

Lemma exec_processEnv c env w :
  processEnv (snd (Sys.exec c env w)) = processEnv w.
Proof.
  unfold Sys.exec. simpl.
  destruct (code _ =? 0)%Z; [|reflexivity].
  destruct c; simpl; try reflexivity.
  destruct (landing _ _ _); reflexivity.
Qed.

Lemma besteffort_run (c : Cmd) (A : Type) (a : A) i w :
  run (tryCatch (execAsync c None ;; Ret a) (fun _ => Ret a)) i w
  = (Resolved a, i, snd (Sys.exec c None w)).
Proof.
  rewrite run_tryCatch, run_bind, run_execAsync.
  destruct (code _ =? 0)%Z; reflexivity.
Qed.

(** X7. The advisory operations of the repository gateway never throw:
    clearing, restoring and removing resolve whatever their command exits
    with, each after exactly that one command, and saving to the staging
    directory resolves with the same path, named after the clock, whether
    or not the copy worked.  None of them touches the objects of the
    invocation or the active branch. *)
Theorem advisory_git_never_throws (tmpDir : string) (i : Inst) (w : World) :
  run GitService.clearSnapshots i w
  = (Resolved tt, i, snd (Sys.exec RmSnapshots None w))
  /\ run (GitService.restoreSnapshotsFromTemp tmpDir) i w
     = (Resolved tt, i, snd (Sys.exec (RestoreFromTemp tmpDir) None w))
  /\ run (GitService.cleanupTemp tmpDir) i w
     = (Resolved tt, i, snd (Sys.exec (RmRf tmpDir) None w))
  /\ run GitService.saveSnapshotsToTemp i w
     = (Resolved (stagingPath w), i,
        snd (Sys.exec (CopyToTemp (stagingPath w)) None (Sys.record EvNow w)))
  /\ branch (snd (Sys.exec RmSnapshots None w)) = branch w
  /\ branch (snd (Sys.exec (RestoreFromTemp tmpDir) None w)) = branch w
  /\ branch (snd (Sys.exec (RmRf tmpDir) None w)) = branch w
  /\ branch (snd (Sys.exec (CopyToTemp (stagingPath w)) None
                           (Sys.record EvNow w))) = branch w.
Proof.
  repeat split; try (apply besteffort_run);
    try (rewrite exec_branch by (intros ?; discriminate); reflexivity).
Qed.

(** X8. [checkout] does not depend on its preparatory [git clean]: it runs
    the clean, then the forced checkout, whatever the clean exits with;
    it resolves exactly when the checkout exits with zero, and otherwise
    throws the error of the checkout, with its command line and its
    streams. *)
Theorem checkout_outcome (name : string) (i : Inst) (w : World) :
  let w1 := snd (Sys.exec GitClean None w) in
  let r := Sys.outcomeOf (GitCheckout name) w1 in
  let w' := snd (run (GitService.checkout name) i w) in
  fst (run (GitService.checkout name) i w)
  = (if (code r =? 0)%Z then Resolved tt
     else Rejected (ExecError ("git checkout -f " ++ name) r), i)
  /\ since w w' = [EvExec GitClean (processEnv w);
                   EvExec (GitCheckout name) (processEnv w)].
Proof.
  intros w1 r w'. unfold w'. rewrite checkout_run. fold w1 r. cbn [fst snd].
  split; [reflexivity|].
  apply since_app. rewrite exec_trace. unfold w1.
  rewrite exec_trace, exec_processEnv, <- app_assoc. reflexivity.
Qed.

(** ** The process supervisor, further *)

(** X9. The port probe never throws, and [lsof] is its only host call.
    It answers that the port is taken exactly when [lsof] runs and lists
    a process.  Whenever [lsof] itself fails, because it is not installed
    or not permitted to look, the port reads as free, whatever listens on
    it. *)
Theorem isPortInUse_outcome (port : N) (i : Inst) (w : World) :
  let lsofRuns := (code (tool (oracle w) (Sys.step w) (Lsof port)) =? 0)%Z in
  let held := listeners (oracle w) (Sys.step w) port in
  run (ServerService.isPortInUse port) i w
  = (Resolved (lsofRuns && negb (Nat.eqb (List.length held) 0)),
     i, Sys.record (EvExec (Lsof port) (processEnv w)) w).
Proof.
  intros lsofRuns held. rewrite isPortInUse_run. fold lsofRuns held.
  destruct held; reflexivity.
Qed.

Lemma stop_run_tracked (child : Proc) (d : string) (w : World) :
  let signals := stopSignals child w in
  run ServerService.stop (mkInst (Some child) d) w
  = (if exits (oracle w) (Sys.step w + List.length signals)
     then (Resolved tt, mkInst None d)
     else (Pending, mkInst (Some child) d),
     mkWorld (oracle w) (processEnv w)
             (trace w ++ signals ++ [EvExitWait child])
             (branch w) (fs w) (isRunning w) (currentProcess w)).
Proof.
  unfold stopSignals, ServerService.stop.
  destruct child as [[n|]]; cbn.
  - destruct (n =? 0)%N; cbn.
    + unfold Sys.step. rewrite Nat.add_0_r. destruct (exits _ _); reflexivity.
    + unfold Sys.step. destruct (groupKill _ _); cbn;
        unfold Sys.record; cbn; rewrite ?length_app, <- ?app_assoc; cbn;
        rewrite <- ?Nat.add_assoc; cbn;
        destruct (exits _ _); reflexivity.
  - unfold Sys.step. rewrite Nat.add_0_r. destruct (exits _ _); reflexivity.
Qed.

(** X10. [stop] on a tracked server never throws.  It signals the process
    group when the handle has a process id, and the handle itself only
    when that throws; a handle without a process id is sent no signal at
    all.  It then waits for the exit of the process: when the exit comes
    the call resolves and the handle is cleared, otherwise the call stays
    pending and the handle stays tracked.  Nothing else of the host
    changes. *)
Theorem stop_tracked (child : Proc) (d : string) (w : World) :
  let i := mkInst (Some child) d in
  let signals := stopSignals child w in
  fst (run ServerService.stop i w)
  = (if exits (oracle w) (Sys.step w + List.length signals)
     then (Resolved tt, mkInst None d)
     else (Pending, i))
  /\ since w (snd (run ServerService.stop i w)) = (signals ++ [EvExitWait child])%list
  /\ branch (snd (run ServerService.stop i w)) = branch w
  /\ fs (snd (run ServerService.stop i w)) = fs w.
Proof.
  intros i signals. unfold i. rewrite stop_run_tracked. fold signals.
  cbn [fst snd]. split; [reflexivity|]. split; [|split; reflexivity].
  apply since_app. reflexivity.
Qed.

(** X11. On a free port [start] is the probe, then [stop], then the spawn.
    A server that is still tracked is stopped first, so that the
    supervisor tracks one server at most; when that stop stays pending
    nothing is spawned.  Otherwise the configured command is spawned once,
    its handle is tracked, and its environment is that of the extension
    host overridden by the custom variables. *)
Theorem start_on_free_port (config : Settings) (i : Inst) (w : World) :
  let port := get (serverPort config) 3000%N in
  let command := get (serverStartCommand config) "npm run dev" in
  let custom := get (environmentVariables config) [] in
  let w1 := Sys.record (EvExec (Lsof port) (processEnv w)) w in
  listeners (oracle w) (Sys.step w) port = [] ->
  run (ServerService.start config) i w
  = match run ServerService.stop i w1 with
    | (Resolved _, i2, w2) =>
        let child := mkProc (spawned (oracle w2) (Sys.step w2)) in
        (Resolved tt, mkInst (Some child) (tmpDir i2),
         Sys.record (EvSpawn command (spread (processEnv w2) custom) child) w2)
    | (Rejected e, i2, w2) => (Rejected e, i2, w2)
    | (Pending, i2, w2) => (Pending, i2, w2)
    end.
Proof.
  intros port command custom w1 H.
  unfold ServerService.start. fold port command custom.
  rewrite run_bind, isPortInUse_run, H, andb_false_r. cbv beta iota. fold w1.
  rewrite run_bind, run_ret. cbv beta iota.
  rewrite run_bind. simpl (run (local _) _ _). cbv beta iota.
  rewrite run_bind.
  assert (E : run (match serverProcess i with
                   | Some _ => ServerService.stop
                   | None => Ret tt
                   end) i w1 = run ServerService.stop i w1).
  { destruct i as [[child|] d]; reflexivity. }
  rewrite E.
  destruct (run ServerService.stop i w1) as [[[[]|e|] i2] w2]; reflexivity.
Qed.

Lemma start_on_free_port_witness :
  run (ServerService.start defaults) tracking (hostWith calm)
  = (Resolved tt, mkInst (Some (mkProc (Some 1003%N))) "",
     mkWorld calm [("PATH", "/usr/bin")]
       [EvExec (Lsof 3000) [("PATH", "/usr/bin")];
        EvKillGroup 4242;
        EvExitWait (mkProc (Some 4242%N));
        EvSpawn "npm run dev" [("PATH", "/usr/bin")] (mkProc (Some 1003%N))]
       "feature" files false None).
Proof.
  rewrite (start_on_free_port defaults tracking (hostWith calm)).
  - reflexivity.
  - reflexivity.
Defined.

(** ** Handlers that never throw *)

Lemma noThrow_bind {A B} (t : Task A) (g : A -> Task B) :
  NoThrow t -> (forall a, NoThrow (g a)) -> NoThrow (bind t g).
Proof.
  intros Ht Hg. induction Ht; simpl; auto; constructor; auto.
Qed.

(** A [catch] block that does not throw makes the whole [try] safe,
    whatever the body does. *)
Lemma noThrow_tryCatch {A} (t : Task A) (h : JsError -> Task A) :
  (forall e, NoThrow (h e)) -> NoThrow (tryCatch t h).
Proof.
  intros Hh. induction t; simpl; auto; constructor; auto.
Qed.

Lemma noThrow_tryFinally {A} (t : Task A) (fin : Task unit) :
  NoThrow t -> NoThrow fin -> NoThrow (tryFinally t fin).
Proof.
  intros Ht Hf. induction Ht; simpl.
  - apply noThrow_bind; auto. intros _. constructor.
  - constructor; auto.
  - constructor; auto.
  - constructor; auto.
Qed.

Lemma noThrow_run {A} (t : Task A) i w :
  NoThrow t -> rejected (fst (fst (run t i w))) = false.
Proof.
  intros H. revert i w.
  induction H as [a|X f k Hk IH|X f k Hk IH|X f k Hk IH]; intros i w; simpl.
  - reflexivity.
  - destruct (f i) as [x i']. apply IH.
  - destruct (f w) as [x w']. apply IH.
  - destruct (f w) as [[x|] w']; [apply IH|reflexivity].
Qed.

(** Splits a goal [NoThrow t] along the structure of [t]. *)
Ltac nothrow_step :=
  lazymatch goal with
  | |- NoThrow (tryCatch _ _) => apply noThrow_tryCatch; intros
  | |- NoThrow (tryFinally _ _) => apply noThrow_tryFinally
  | |- NoThrow (bind _ _) => apply noThrow_bind; [|intros]
  | |- NoThrow (when ?b _) => destruct b; simpl when
  | |- NoThrow (local _) => apply NoThrowLocal; intros
  | |- NoThrow (host _) => apply NoThrowHost; intros
  | |- NoThrow (await _) => apply NoThrowAwait; intros
  | |- NoThrow (Ret _) => apply NoThrowRet
  | |- NoThrow (match ?x with _ => _ end) => destruct x
  | |- NoThrow _ => progress (autounfold with tasks; cbv zeta)
  end.

Ltac nothrow := repeat nothrow_step.

(** X12. The command handlers and the helpers they call for results
    never throw: whatever git, the runner, the report server or the user
    do, [visualRegression.runTest], [runWorkflow] (in any state of its
    flag), [cleanSnapshots], both ways of opening the report and
    [runCommand] do not reject. *)
Theorem handlers_never_throw (config : Settings) (workspaceRoot : string)
  (mode : option VisualRegressionController.Mode) (page : option string)
  (command : Cmd) (i : Inst) (w : World) :
  rejected (fst (fst (run (Extension.runTestCommand config workspaceRoot) i w)))
  = false
  /\ rejected (fst (fst (run (VisualRegressionController.runWorkflow
                                config mode page) i w))) = false
  /\ rejected (fst (fst (run VisualRegressionController.cleanSnapshots i w)))
     = false
  /\ rejected (fst (fst (run VisualRegressionController.showReport i w)))
     = false
  /\ rejected (fst (fst (run TestRunner.showHtmlReport i w))) = false
  /\ rejected (fst (fst (run (VisualRegressionController.runCommand command)
                             i w))) = false.
Proof.
  repeat split; apply noThrow_run;
    unfold Extension.runTestCommand, VisualRegressionController.cleanSnapshots;
    nothrow.
Qed.

(** ** No server left behind *)

Lemma custody_app command evs evs' :
  custody command (evs ++ evs')
  = fold_left (custodyStep command) evs' (custody command evs).
Proof. unfold custody. apply fold_left_app. Qed.

Lemma apart_step command c e :
  apart command e = true -> custodyStep command c e = c.
Proof.
  destruct e; simpl; try discriminate; try reflexivity.
  destruct (String.eqb line command); [discriminate|reflexivity].
Qed.

Lemma watch_same command w0 Q i i' w w' :
  oracle w' = oracle w -> trace w' = trace w ->
  serverProcess i' = serverProcess i ->
  watch command w0 Q i w -> watch command w0 Q i' w'.
Proof. unfold watch. intros -> -> ->. auto. Qed.

Lemma watch_event command w0 Q i i' w w' e :
  oracle w' = oracle w -> trace w' = (trace w ++ [e])%list ->
  apart command e = true ->
  serverProcess i' = serverProcess i ->
  watch command w0 Q i w -> watch command w0 Q i' w'.
Proof.
  unfold watch. intros -> -> A -> (O & evs & T & H). split; [exact O|].
  exists (evs ++ [e])%list. rewrite T, app_assoc. split; [reflexivity|].
  rewrite custody_app. simpl. rewrite (@apart_step command _ e A). exact H.
Qed.

Lemma watch_weaken command w0 (P Q : option Proc -> Custody -> Prop) i w :
  (forall h c, P h c -> Q h c) ->
  watch command w0 P i w -> watch command w0 Q i w.
Proof. intros I (O & evs & T & H). unfold watch. eauto 6. Qed.

Lemma idle_held command w0 i w : idle command w0 i w -> held command w0 i w.
Proof. apply watch_weaken. intros h c H. left. exact H. Qed.

Lemma serving_held command w0 i w :
  serving command w0 i w -> held command w0 i w.
Proof. apply watch_weaken. intros h c H. right. exact H. Qed.

(** Settles the obligation of one host call that does not concern the
    server. *)
Ltac watch_leaf :=
  intros;
  first
    [ eapply watch_same; [| | |eassumption];
      [ first [apply exec_oracle | reflexivity] | reflexivity | reflexivity ]
    | eapply watch_event; [| | | |eassumption];
      [ first [apply exec_oracle | reflexivity]
      | first [apply exec_trace | reflexivity]
      | first [ reflexivity | unfold apart; apply negb_true_iff; assumption ]
      | reflexivity ]
    | match goal with H : unasked _ |- _ => destruct H end ].

Lemma sameProc_refl child : sameProc child child = true.
Proof. unfold sameProc. destruct (pid child); [apply N.eqb_refl|reflexivity]. Qed.

(** What [stop] makes of a running server: the signals, then the wait. *)
Lemma stop_custody_events command child w :
  fold_left (custodyStep command) (stopSignals child w ++ [EvExitWait child])
            (Running child (negb (needsSignal child)))
  = Idle.
Proof.
  unfold stopSignals, needsSignal.
  destruct (pid child) as [n|] eqn:P.
  - destruct (n =? 0)%N eqn:Z; simpl.
    + rewrite sameProc_refl. reflexivity.
    + destruct (groupKill (oracle w) (Sys.step w)); simpl;
        rewrite P, N.eqb_refl, ?sameProc_refl; simpl;
        rewrite ?sameProc_refl; reflexivity.
  - simpl. rewrite sameProc_refl. reflexivity.
Qed.

(** [stop] never rejects; when it resolves no server is running, whether
    one was or not. *)
Lemma stop_custody command w0 i w :
  held command w0 i w ->
  match run ServerService.stop i w with
  | (Resolved _, i', w') => idle command w0 i' w'
  | (Rejected _, _, _) => False
  | (Pending, _, _) => True
  end.
Proof.
  intros (O & evs & T & H). destruct i as [[child|] d].
  - rewrite stop_run_tracked. cbv zeta.
    destruct (exits _ _); [|exact I].
    destruct H as [[H _]|(c & H & C)]; [discriminate H|].
    simpl in H. injection H as <-.
    split; [exact O|].
    exists (evs ++ stopSignals child w ++ [EvExitWait child])%list.
    simpl. rewrite T, <- app_assoc. split; [reflexivity|].
    rewrite custody_app, C, stop_custody_events. auto.
  - destruct H as [[_ H]|(c & H & _)]; [|discriminate H].
    change (run ServerService.stop (mkInst None d) w)
      with (@Resolved unit tt, mkInst None d, w).
    split; [exact O|]. exists evs. auto.
Qed.

(** [start] with no server running: the probe, then either the port
    conflict or the spawn of the configured command. *)
Lemma start_custody config w0 i w :
  let command := get (serverStartCommand config) "npm run dev" in
  idle command w0 i w ->
  match run (ServerService.start config) i w with
  | (Resolved _, i', w') => serving command w0 i' w'
  | (_, i', w') => idle command w0 i' w'
  end.
Proof.
  intros command (O & evs & T & H & C).
  unfold ServerService.start. fold command.
  rewrite run_bind, isPortInUse_run. cbv beta iota.
  set (w1 := Sys.record (EvExec (Lsof (get (serverPort config) 3000%N)) (processEnv w)) w).
  assert (J : idle command w0 i w1).
  { split; [exact O|].
    exists (evs ++ [EvExec (Lsof (get (serverPort config) 3000%N)) (processEnv w)])%list.
    simpl. rewrite T, app_assoc. split; [reflexivity|].
    rewrite custody_app, C. auto. }
  destruct (_ && _).
  - rewrite run_bind, run_throw. exact J.
  - rewrite run_bind, run_ret. cbv beta iota.
    rewrite run_bind. simpl (run (local _) _ _). cbv beta iota.
    rewrite H. rewrite run_bind, run_ret. cbv beta iota.
    destruct J as (O1 & evs1 & T1 & _ & C1).
    cbn -[w1]. split; [exact O1|].
    eexists. split.
    + change (trace (Sys.record ?e w1)) with (trace w1 ++ [e])%list.
      rewrite T1, <- app_assoc. reflexivity.
    + rewrite custody_app, C1. simpl. rewrite String.eqb_refl. eauto.
Qed.

(** Runs [start] as the next step, with no server running. *)
Ltac start_step config :=
  rewrite run_bind;
  lazymatch goal with
  | J : idle _ _ ?i ?w |- _ =>
      let S := fresh "J" in
      pose proof (start_custody config J) as S; cbv zeta in S; clear J;
      destruct (run (ServerService.start config) i w) as [[[?|?|] ?] ?];
      cbv beta iota;
      [ | exact (idle_held S) | exact I ]
  end.

(** Runs [stop] as the next step. *)
Ltac stop_step :=
  rewrite run_bind;
  lazymatch goal with
  | J : serving _ _ ?i ?w |- _ =>
      let S := fresh "J" in
      pose proof (stop_custody (serving_held J)) as S;
      destruct (run ServerService.stop i w) as [[[?|?|] ?] ?];
      cbv beta iota;
      [ clear J | destruct S | exact I ]
  end.

Lemma sequence_custody config urls main b port t w0 i w :
  let command := get (serverStartCommand config) "npm run dev" in
  String.eqb (render PwShowReport) command = false ->
  idle command w0 i w ->
  custodyAfter command w0 (run (TestRunner.sequence config urls main b port t) i w).
Proof.
  intros command N J. unfold TestRunner.sequence.
  ledger_step watch_leaf ltac:(fun H => first [exact (idle_held H) | exact I]).
  start_step config.
  do 4 ledger_step watch_leaf ltac:(fun H => first [exact (serving_held H) | exact I]).
  stop_step.
  do 3 ledger_step watch_leaf ltac:(fun H => first [exact (idle_held H) | exact I]).
  start_step config.
  do 2 ledger_step watch_leaf ltac:(fun H => first [exact (serving_held H) | exact I]).
  stop_step.
  lazymatch goal with
  | J : idle _ _ ?i ?w |- custodyAfter _ _ (run ?rest _ _) =>
      assert (B : Built (idle command w0) unasked rest) by (built; watch_leaf);
      pose proof (built_inv B J) as K;
      destruct (run rest i w) as [[[?|?|] ?] ?]; simpl in K;
      first [ exact K | exact (idle_held K) | exact I ]
  end.
Qed.

(** The error handler of [runTest] stops the server that is running. *)
Lemma recover_custody command w0 b port e i w :
  held command w0 i w ->
  settled (fst (fst (run (TestRunner.recover b port e) i w))) = true ->
  idle command w0 (snd (fst (run (TestRunner.recover b port e) i w)))
                  (snd (run (TestRunner.recover b port e) i w)).
Proof.
  intros J. unfold TestRunner.recover. rewrite run_bind.
  pose proof (stop_custody J) as S.
  destruct (run ServerService.stop i w) as [[[[]|e'|] i1] w1]; cbv beta iota.
  - intros _.
    match goal with
    | |- idle _ _ (snd (fst (run ?t _ _))) _ =>
        assert (B : Built (idle command w0) unasked t) by (built; watch_leaf)
    end.
    exact (built_inv B S).
  - destruct S.
  - simpl. discriminate.
Qed.

Lemma cleanup_custody {A} (o : Outcome A) command w0 i w :
  idle command w0 i w ->
  idle command w0 (snd (fst (afterwards o (run TestRunner.cleanup i w))))
                  (snd (afterwards o (run TestRunner.cleanup i w))).
Proof.
  intros J.
  assert (B : Built (idle command w0) unasked TestRunner.cleanup)
    by (built; watch_leaf).
  pose proof (built_inv B J) as K.
  destruct (run TestRunner.cleanup i w) as [[[] ?] ?]; exact K.
Qed.

Lemma idle_ends command w0 i w :
  idle command w0 i w ->
  serverProcess i = None /\ custody command (since w0 w) = Idle.
Proof.
  intros (_ & evs & T & H & C). rewrite (@since_app w0 w evs T). auto.
Qed.

(** X13. A run of [runTest] leaves no server behind.  Started with no
    server tracked, as a fresh supervisor is, a run that has settled,
    resolved or thrown at any step, tracks none; and its log shows that
    it has started a server only while none was running, and that it has
    stopped every server it has started: the process group of that very
    server was signalled if the server had a process id, and its exit was
    awaited, before the next server was started and before the run
    settled.  The report viewer, which the run leaves running on purpose,
    is told apart by its command line. *)
Theorem runTest_leaves_no_server (config : Settings) (workspaceRoot : string)
  (urlPaths : list string) (i : Inst) (w : World) :
  let command := get (serverStartCommand config) "npm run dev" in
  let r := run (TestRunner.runTest config workspaceRoot urlPaths) i w in
  command <> render PwShowReport ->
  serverProcess i = None ->
  settled (fst (fst r)) = true ->
  serverProcess (snd (fst r)) = None
  /\ custody command (since w (snd r)) = Idle.
Proof.
  intros command r N H. unfold r. clear r.
  assert (N' : String.eqb (render PwShowReport) command = false).
  { apply String.eqb_neq. congruence. }
  assert (J : idle command w i w).
  { split; [reflexivity|]. exists []. rewrite app_nil_r. auto. }
  unfold TestRunner.runTest. cbv zeta.
  do 3 ledger_step
    watch_leaf
    ltac:(fun H => first [ discriminate | intros _; exact (idle_ends H) ]).
  rewrite run_bind. simpl (run (local _) _ _). cbv beta iota.
  rewrite run_tryFinally, run_tryCatch.
  lazymatch goal with
  | J : idle _ ?base ?j ?v |- context [run (TestRunner.sequence ?c ?u ?m ?b ?p ?t) ?j' _] =>
      assert (U : idle command base j' v)
        by (destruct J as (Ho & evs & Ht & Hs); split; [exact Ho|];
            exists evs; auto);
      pose proof (@sequence_custody c u m b p t base j' v N' U) as TS;
      destruct (run (TestRunner.sequence c u m b p t) j' v)
        as [[[[]|e|] i5] w5]; simpl in TS; cbv beta iota
  end.
  - intros _. apply idle_ends. apply cleanup_custody. exact TS.
  - lazymatch goal with
    | |- context [run (TestRunner.recover ?b ?p e) i5 w5] =>
        pose proof (@recover_custody command w b p e i5 w5 TS) as TR;
        destruct (run (TestRunner.recover b p e) i5 w5) as [[o6 i6] w6]
    end.
    simpl in TR.
    destruct o6; cbv beta iota; try discriminate;
      intros _; apply idle_ends; apply cleanup_custody; apply TR; reflexivity.
  - discriminate.
Qed.

Lemma runTest_leaves_no_server_witness :
  let r := run (TestRunner.runTest defaults "/ws" ["/"; "/dashboard"]) fresh
               (hostWith failingRunner) in
  List.length (filter (fun e => match e with EvSpawn _ _ _ => true | _ => false end)
                      (since (hostWith failingRunner) (snd r))) = 1
  /\ serverProcess (snd (fst r)) = None
  /\ custody "npm run dev" (since (hostWith failingRunner) (snd r)) = Idle.
Proof.
  split; [vm_compute; reflexivity|].
  apply (@runTest_leaves_no_server defaults "/ws" ["/"; "/dashboard"] fresh
           (hostWith failingRunner)).
  - discriminate.
  - reflexivity.
  - vm_compute. reflexivity.
Defined.

(** ** The error that reaches the caller *)

Lemma cleanup_resolves i w :
  fst (run TestRunner.cleanup i w) = (Resolved tt, i).
Proof.
  destruct (Js.isEmpty (tmpDir i)) eqn:E.
  - rewrite cleanup_run_unstaged; [reflexivity|].
    destruct (tmpDir i); [reflexivity|discriminate E].
  - unfold TestRunner.cleanup.
    rewrite run_bind. simpl (run (local _) _ _). cbv beta iota.
    rewrite E. simpl when. unfold GitService.cleanupTemp.
    rewrite besteffort_run. reflexivity.
Qed.

Lemma recover_outcome b port e i w :
  fst (fst (run (TestRunner.recover b port e) i w)) = Rejected e
  \/ fst (fst (run (TestRunner.recover b port e) i w)) = Pending.
Proof.
  unfold TestRunner.recover. rewrite run_bind.
  destruct (run ServerService.stop i w) as [[[[]|e'|] i1] w1] eqn:S.
  - left. rewrite run_bind, killPort_run. cbv beta iota.
    rewrite run_bind, run_tryCatch, checkout_run. cbv zeta.
    destruct (code _ =? 0)%Z; reflexivity.
  - exfalso. eapply stop_not_rejected. exact S.
  - right. reflexivity.
Qed.

(** X14. The error of the failed step is the error of the run.  When a
    step of the [try] block of [runTest] throws, the block with its
    [catch] and [finally] rejects with that very error once it settles:
    neither a failure of the rollback checkout nor one of the removal of
    the staging directory replaces it. *)
Theorem runTest_rethrows_original (config : Settings) (urlPaths : list string)
  (main original : string) (port startupTime : N)
  (e : JsError) (i i1 : Inst) (w w1 : World) :
  let body := TestRunner.sequence config urlPaths main original port startupTime in
  let guarded :=
    tryFinally (tryCatch body (TestRunner.recover original port))
               TestRunner.cleanup in
  run body i w = (Rejected e, i1, w1) ->
  settled (fst (fst (run guarded i w))) = true ->
  fst (fst (run guarded i w)) = Rejected e.
Proof.
  intros body guarded H. unfold guarded.
  rewrite run_tryFinally, run_tryCatch, H. cbv beta iota.
  destruct (recover_outcome original port e i1 w1) as [R|R];
    destruct (run (TestRunner.recover original port e) i1 w1) as [[o2 i2] w2];
    simpl in R; subst o2; cbv beta iota; [|discriminate].
  intros _. pose proof (cleanup_resolves i2 w2) as C.
  destruct (run TestRunner.cleanup i2 w2) as [[o3 i3] w3].
  simpl in C. inversion C. reflexivity.
Qed.

Lemma runTest_rethrows_original_witness :
  fst (fst (run (tryFinally
                   (tryCatch
                      (TestRunner.sequence defaults ["/"] "main" "feature" 3000 5000)
                      (TestRunner.recover "feature" 3000))
                   TestRunner.cleanup)
                fresh (hostWith stranding)))
  = Rejected (Error (ServerService.portInUseMessage 3000)).
Proof.
  apply (@runTest_rethrows_original defaults ["/"] "main" "feature" 3000 5000
           (Error (ServerService.portInUseMessage 3000)) fresh
           (snd (fst (run (TestRunner.sequence defaults ["/"] "main" "feature"
                             3000 5000) fresh (hostWith stranding))))
           (hostWith stranding)
           (snd (run (TestRunner.sequence defaults ["/"] "main" "feature"
                        3000 5000) fresh (hostWith stranding)))).
  - vm_compute. reflexivity.
  - vm_compute. reflexivity.
Defined.

(** ** The controller, further *)

Lemma skipn_own (tr l evs : list Event) :
  l = (tr ++ evs)%list -> skipn (length tr) l = evs.
Proof.
  intros ->. rewrite skipn_app, skipn_all, Nat.sub_diag. reflexivity.
Qed.

(** X15. When [git branch --show-current], the second host call of the
    workflow, fails, [runWorkflow] resolves without starting the npm
    script: the status bar goes to "failed", the user is told
    "Failed to run visual regression tests: Error: Could not determine
    current branch" (what git wrote is not part of the message), the flag
    is cleared and the branch is untouched. *)
Theorem runWorkflow_unknown_branch (config : Settings)
  (mode : option VisualRegressionController.Mode) (page : option string)
  (i : Inst) (w : World) :
  isRunning w = false ->
  code (tool (oracle w) (S (length (trace w))) GitShowCurrent) <> 0%Z ->
  let r := run (VisualRegressionController.runWorkflow config mode page) i w in
  fst r = (Resolved tt, i)
  /\ since w (snd r)
     = [EvStatusBar "running";
        EvExec GitShowCurrent (processEnv w);
        EvStatusBar "failed";
        EvNotify "Failed to run visual regression tests: Error: Could not determine current branch"]
  /\ isRunning (snd r) = false
  /\ branch (snd r) = branch w.
Proof.
  intros H C. apply Z.eqb_neq in C.
  destruct w as [o pe tr br f ir cp]. simpl in H, C. subst ir.
  unfold since, run, VisualRegressionController.runWorkflow.
  cbn -[String.append Js.trim].
  unfold Sys.step. cbn -[String.append Js.trim].
  rewrite length_app, Nat.add_1_r. rewrite C. cbn -[String.append Js.trim skipn].
  rewrite C. cbn -[String.append Js.trim skipn].
  repeat split.
  rewrite <- !app_assoc. apply skipn_own. reflexivity.
Qed.

Lemma runWorkflow_unknown_branch_witness :
  let r := run (VisualRegressionController.runWorkflow defaults None None)
               fresh (hostWith outsideRepository) in
  fst r = (Resolved tt, fresh)
  /\ since (hostWith outsideRepository) (snd r)
     = [EvStatusBar "running";
        EvExec GitShowCurrent (processEnv (hostWith outsideRepository));
        EvStatusBar "failed";
        EvNotify "Failed to run visual regression tests: Error: Could not determine current branch"]
  /\ isRunning (snd r) = false
  /\ branch (snd r) = branch (hostWith outsideRepository).
Proof.
  apply (@runWorkflow_unknown_branch defaults None None fresh
           (hostWith outsideRepository)).
  - reflexivity.
  - simpl. discriminate.
Defined.

(** X16. On the branch [main] the workflow asks before it goes on, and
    any answer but "Continue Anyway", a dismissed prompt included, ends
    it there: the status bar returns to "idle", no npm script is started,
    no error is shown, the flag is cleared and the branch stays [main]. *)
Theorem runWorkflow_declined_on_main (config : Settings)
  (mode : option VisualRegressionController.Mode) (page : option string)
  (i : Inst) (w : World) :
  isRunning w = false ->
  branch w = "main" ->
  code (tool (oracle w) (S (length (trace w))) GitShowCurrent) = 0%Z ->
  reply (oracle w) (S (S (length (trace w)))) <> Some "Continue Anyway" ->
  let r := run (VisualRegressionController.runWorkflow config mode page) i w in
  fst r = (Resolved tt, i)
  /\ since w (snd r)
     = [EvStatusBar "running";
        EvExec GitShowCurrent (processEnv w);
        EvPrompt "You are on the main branch. This workflow is designed for feature branches."
                 ["Continue Anyway"; "Cancel"];
        EvStatusBar "idle"]
  /\ isRunning (snd r) = false
  /\ branch (snd r) = "main".
Proof.
  intros H B C R. apply Z.eqb_eq in C.
  destruct w as [o pe tr br f ir cp]. simpl in H, B, C, R. subst ir br.
  assert (P : VisualRegressionController.isItem "Continue Anyway"
                (match reply o (S (S (length tr))) with
                 | Some x => if existsb (String.eqb x) ["Continue Anyway"; "Cancel"]
                             then Some x else None
                 | None => None
                 end) = false).
  { destruct (reply o (S (S (length tr)))) as [x|]; [|reflexivity].
    destruct (String.eqb x "Continue Anyway") eqn:E.
    - apply String.eqb_eq in E. subst x. congruence.
    - cbn -[String.eqb]. destruct (_ || _); [|reflexivity].
      cbn -[String.eqb]. exact E. }
  unfold since, run, VisualRegressionController.runWorkflow.
  cbn -[String.append Js.trim VisualRegressionController.isItem existsb].
  unfold Sys.step.
  cbn -[String.append Js.trim VisualRegressionController.isItem existsb].
  rewrite length_app, Nat.add_1_r. rewrite C.
  cbn -[String.append Js.trim skipn VisualRegressionController.isItem existsb].
  rewrite ?C.
  cbn -[String.append Js.trim skipn VisualRegressionController.isItem existsb].
  change (Js.trim ("main" ++ nl)) with "main".
  cbn -[skipn VisualRegressionController.isItem existsb].
  replace (length ((tr ++ [EvStatusBar "running"]) ++ [EvExec GitShowCurrent pe]))
    with (S (S (length tr))) by (rewrite !length_app; simpl; lia).
  rewrite P. cbn -[skipn]. unfold Sys.record; cbn -[skipn].
  repeat split.
  rewrite <- !app_assoc. apply skipn_own. reflexivity.
Qed.

Lemma runWorkflow_declined_on_main_witness :
  let r := run (VisualRegressionController.runWorkflow defaults None None)
               fresh onMain in
  fst r = (Resolved tt, fresh)
  /\ since onMain (snd r)
     = [EvStatusBar "running";
        EvExec GitShowCurrent (processEnv onMain);
        EvPrompt "You are on the main branch. This workflow is designed for feature branches."
                 ["Continue Anyway"; "Cancel"];
        EvStatusBar "idle"]
  /\ isRunning (snd r) = false
  /\ branch (snd r) = "main".
Proof.
  apply (@runWorkflow_declined_on_main defaults None None fresh onMain).
  - reflexivity.
  - reflexivity.
  - reflexivity.
  - simpl. discriminate.
Defined.

(** X17. [cleanSnapshots] never throws, and it deletes only on the answer
    "Delete Snapshots".  On any other answer, and when the prompt is
    dismissed, the prompt is its only host call.  On that answer it runs
    [rm -rf tests/visual/*.spec.ts-snapshots] once and reports success or
    failure by the exit code of the command. *)
Theorem cleanSnapshots_gated (i : Inst) (w : World) :
  let r := run VisualRegressionController.cleanSnapshots i w in
  let prompt :=
    EvPrompt "This will delete all visual regression snapshots. Continue?"
             ["Delete Snapshots"] in
  let child := mkProc (spawned (oracle w) (S (length (trace w)))) in
  let exit := code (tool (oracle w) (S (S (length (trace w)))) RmSnapshots) in
  let deletion :=
    [EvSpawn "rm -rf tests/visual/*.spec.ts-snapshots" (processEnv w) child;
     EvExec RmSnapshots (processEnv w);
     EvNotify (if (exit =? 0)%Z then "Visual regression snapshots cleaned"
               else "Failed to clean snapshots")] in
  fst r = (Resolved tt, i)
  /\ since w (snd r)
     = prompt :: match reply (oracle w) (length (trace w)) with
                 | Some x => if String.eqb x "Delete Snapshots" then deletion else []
                 | None => []
                 end.
Proof.
  destruct w as [o pe tr br f ir cp].
  unfold since, run, VisualRegressionController.cleanSnapshots.
  cbn -[String.eqb skipn existsb VisualRegressionController.isItem].
  unfold Sys.step.
  cbn -[String.eqb skipn existsb VisualRegressionController.isItem].
  destruct (reply o (length tr)) as [x|].
  - cbn -[String.eqb skipn]. rewrite orb_false_r.
    destruct (String.eqb x "Delete Snapshots") eqn:E.
    + cbn -[String.eqb skipn]. rewrite E.
      cbn -[skipn]. rewrite !length_app. cbn -[skipn].
      replace (length tr + 1) with (S (length tr)) by lia.
      replace (S (length tr) + 1) with (S (S (length tr))) by lia.
      destruct (code (tool o (S (S (length tr))) RmSnapshots) =? 0)%Z;
        cbn -[skipn]; split; try reflexivity;
        rewrite <- !app_assoc; apply skipn_own; reflexivity.
    + cbn -[skipn]. split; [reflexivity|]. apply skipn_own. reflexivity.
  - cbn -[skipn]. split; [reflexivity|]. apply skipn_own. reflexivity.
Qed.

(** ** The template offered by the validation *)






















